(** * Multimodal RAG: retrieval and generation core

    A shallow embedding of [core/retrieval.py] and [core/generation.py].

    Python values are modelled as follows.
    - [str] is [string]; one element of the string stands for one character.
    - [int] is [Z]; [len] of a list is a [nat].
    - A distance score ([float]) is a rational number [Q]: the code only
      multiplies a score by a weight and compares two products with [<].
    - A [dict] with string keys is a [gmap string _]; the insertion-ordered
      dictionary of [get_unique_source_pdfs] is an association list.
    - A call that may raise returns an [outcome]; [try: ... except Exception]
      is a [match] on it.
    - The vector collections, the HTTP client and the two chat models are
      collaborators outside the repository: they are fields of a record of
      functions, about which nothing is assumed. *)

From Stdlib Require Import Ascii String QArith DecimalString.
From stdpp Require Import gmap strings list sorting.

Local Open Scope string_scope.
Local Open Scope list_scope.
Local Open Scope Z_scope.

(** ** Python preliminaries *)

Module Py.

(** Exceptions the two modules raise or catch.  [ValueError] is what the
    code raises itself; [Exception] is any failure of a collaborator. *)
Inductive exn : Type :=
| ValueError (msg : string)
| Exception (msg : string).

(** [str(e)] *)
Definition str_exn (e : exn) : string :=
  match e with
  | ValueError msg => msg
  | Exception msg => msg
  end.

Inductive outcome (A : Type) : Type :=
| Return (a : A)
| Raise (e : exn).
Arguments Return {A} a.
Arguments Raise {A} e.

(** Values found in the metadata of a stored document ([store.py] keeps
    [str], [int] and [bool]; a [float] never reaches the keys read here). *)
Inductive MetaVal : Type :=
| MStr (s : string)
| MInt (z : Z)
| MBool (b : bool).

(** Truth value of a metadata value, as [if v:] and [v or w] test it. *)
Definition truthy (v : MetaVal) : bool :=
  match v with
  | MStr s => negb (String.eqb s "")
  | MInt z => negb (z =? 0)
  | MBool b => b
  end.

Definition bool_to_Z (b : bool) : Z := if b then 1 else 0.

(** [v == w], which is also the equality of dictionary keys:
    [True == 1] and [False == 0]. *)
Definition py_eqb (v w : MetaVal) : bool :=
  match v, w with
  | MStr s, MStr t => String.eqb s t
  | MInt a, MInt b => a =? b
  | MBool a, MBool b => Bool.eqb a b
  | MInt a, MBool b => a =? bool_to_Z b
  | MBool a, MInt b => bool_to_Z a =? b
  | _, _ => false
  end.

(** [a or b] where either side may be absent ([None]). *)
Definition py_or (a b : option MetaVal) : option MetaVal :=
  match a with
  | Some v => if truthy v then Some v else b
  | None => b
  end.

(** [str(n)] for a length or an index. *)
Definition str_nat (n : nat) : string :=
  NilZero.string_of_uint (Nat.to_uint n).

(** [str(z)] *)
Definition str_Z (z : Z) : string :=
  NilZero.string_of_int (Z.to_int z).

(** [str(v)], as an f-string prints a metadata value. *)
Definition str_meta (v : MetaVal) : string :=
  match v with
  | MStr s => s
  | MInt z => str_Z z
  | MBool true => "True"
  | MBool false => "False"
  end.

(** [l[:k]] for a Python [int] [k]: a negative [k] counts from the end. *)
Definition slice_to {A : Type} (k : Z) (l : list A) : list A :=
  if k <? 0 then take (length l - Z.to_nat (- k)) l
  else take (Z.to_nat k) l.

(** [enumerate(l, start)] *)
Fixpoint enumerate {A : Type} (start : nat) (l : list A) : list (nat * A) :=
  match l with
  | [] => []
  | x :: l' => (start, x) :: enumerate (S start) l'
  end.

(** The newline character and the one-character string ["\n"]. *)
Definition newline : ascii := ascii_of_nat 10.
Definition nl : string := String newline "".

(** [s[:n]] for [n >= 0]. *)
Fixpoint str_take (n : nat) (s : string) : string :=
  match n, s with
  | S n', String c s' => String c (str_take n' s')
  | _, _ => ""
  end.

(** [s.replace(c, by)] for a one-character pattern [c]. *)
Fixpoint str_replace (c : ascii) (by_ : string) (s : string) : string :=
  match s with
  | "" => ""
  | String a s' =>
      if Ascii.eqb a c then by_ +:+ str_replace c by_ s'
      else String a (str_replace c by_ s')
  end.

(** [s.lower()] on the letters [A] to [Z]. *)
Definition lower_ascii (c : ascii) : ascii :=
  let n := nat_of_ascii c in
  if (65 <=? n)%nat && (n <=? 90)%nat then ascii_of_nat (n + 32) else c.

Fixpoint lower (s : string) : string :=
  match s with
  | "" => ""
  | String c s' => String (lower_ascii c) (lower s')
  end.

(** [c.isspace()]: the characters [str.strip()] removes. *)
Definition is_space (c : ascii) : bool :=
  let n := nat_of_ascii c in
  ((9 <=? n)%nat && (n <=? 13)%nat)
  || ((28 <=? n)%nat && (n <=? 32)%nat).

Fixpoint lstrip (s : string) : string :=
  match s with
  | "" => ""
  | String c s' => if is_space c then lstrip s' else s
  end.

Fixpoint rstrip (s : string) : string :=
  match s with
  | "" => ""
  | String c s' =>
      match rstrip s' with
      | "" => if is_space c then "" else String c ""
      | r => String c r
      end
  end.

(** [s.strip()] *)
Definition strip (s : string) : string := rstrip (lstrip s).

(** [sep.join(parts)] *)
Definition join (sep : string) (parts : list string) : string :=
  String.concat sep parts.

End Py.

Import Py.

(** ** core/retrieval.py *)

Module Retrieval.

Record Document : Type := {
  page_content : string;
  metadata : gmap string MetaVal
}.

(** A [Chroma] collection.  Each method may raise. *)
Record Chroma : Type := {
  similarity_search :
    string -> Z -> option (gmap string MetaVal) -> outcome (list Document);
  similarity_search_with_score :
    string -> Z -> outcome (list (Document * Q));
  max_marginal_relevance_search :
    string -> Z -> Z -> Q -> outcome (list Document)
}.

(** [MultimodalRetriever]: the three collections opened from the
    configuration. *)
Record MultimodalRetriever : Type := {
  text_store : Chroma;
  image_store : Chroma;
  table_store : Chroma
}.

(** The dictionary [{"text": [...], "images": [...], "tables": [...]}]. *)
Record Results : Type := {
  text : list Document;
  images : list Document;
  tables : list Document
}.

(** [try: results[key] = search(...) except Exception: log]: the entry
    keeps its initial value [[]] when the search raises. *)
Definition try_search {A : Type} (r : outcome (list A)) : list A :=
  match r with
  | Return l => l
  | Raise _ => []
  end.

(** [if filter_metadata:] holds for a dictionary with at least one key. *)
Definition filter_given (filter_metadata : option (gmap string MetaVal)) : bool :=
  match filter_metadata with
  | Some m => negb (bool_decide (m = ∅))
  | None => false
  end.

Definition retrieve_all (self : MultimodalRetriever) (query : string)
    (k_text k_images k_tables : Z)
    (filter_metadata : option (gmap string MetaVal)) : Results :=
  let search (store : Chroma) (k : Z) :=
    if filter_given filter_metadata
    then similarity_search store query k filter_metadata
    else similarity_search store query k None in
  {| text := try_search (search (text_store self) k_text);
     images := try_search (search (image_store self) k_images);
     tables := try_search (search (table_store self) k_tables) |}.

(** An entry of the merged ranking: [(doc, weighted_score, type_)]. *)
Definition Ranked : Type := Document * Q * string.

Definition ranked_doc (x : Ranked) : Document := fst (fst x).
Definition ranked_score (x : Ranked) : Q := snd (fst x).
Definition ranked_type (x : Ranked) : string := snd x.

(** [a < b] on scores. *)
Definition Qlt_bool (a b : Q) : bool := negb (Qle_bool b a).

(** [list.sort(key=lambda x: x[1])].  Python's sort is stable and compares
    keys with [<] only: an element is placed before the first element whose
    key is not smaller than its own. *)
Fixpoint sort_insert (x : Ranked) (l : list Ranked) : list Ranked :=
  match l with
  | [] => [x]
  | y :: l' =>
      if Qlt_bool (ranked_score y) (ranked_score x)
      then y :: sort_insert x l'
      else x :: y :: l'
  end.

Definition sort_by_score (l : list Ranked) : list Ranked :=
  foldr sort_insert [] l.

(** The loop [for doc, score in results: all_results.append((doc, score * weight, type_))]. *)
Definition weigh (weight : Q) (type_ : string) (results : list (Document * Q))
    : list Ranked :=
  map (fun ds => (fst ds, (snd ds * weight)%Q, type_)) results.

(** [all_results] just before it is sorted. *)
Definition hybrid_candidates (self : MultimodalRetriever) (query : string)
    (k : Z) (text_weight image_weight table_weight : Q) : list Ranked :=
  weigh text_weight "text"
    (try_search (similarity_search_with_score (text_store self) query k))
  ++ weigh image_weight "image"
    (try_search (similarity_search_with_score (image_store self) query k))
  ++ weigh table_weight "table"
    (try_search (similarity_search_with_score (table_store self) query k)).

Definition retrieve_hybrid_ranked (self : MultimodalRetriever) (query : string)
    (k : Z) (text_weight image_weight table_weight : Q) : list Ranked :=
  let all_results :=
    hybrid_candidates self query k text_weight image_weight table_weight in
  let all_results := sort_by_score all_results in
  let top_results := slice_to k all_results in
  top_results.

Definition retrieve_mmr (self : MultimodalRetriever) (query : string)
    (k fetch_k : Z) (lambda_mult : Q)
    (include_text include_images include_tables : bool) : Results :=
  let search (store : Chroma) (include : bool) :=
    if include
    then try_search (max_marginal_relevance_search store query k fetch_k lambda_mult)
    else [] in
  {| text := search (text_store self) include_text;
     images := search (image_store self) include_images;
     tables := search (table_store self) include_tables |}.

Definition retrieve_by_type_only (self : MultimodalRetriever) (query : string)
    (type_ : string) (k : Z) : outcome (list Document) :=
  if String.eqb type_ "text" then similarity_search (text_store self) query k None
  else if String.eqb type_ "image" then similarity_search (image_store self) query k None
  else if String.eqb type_ "table" then similarity_search (table_store self) query k None
  else Raise (ValueError
         ("Invalid type: " +:+ type_ +:+ ". Must be 'text', 'image', or 'table'")).

(** The keyword arguments [**kwargs] read by [retrieve_multimodal]; [None]
    stands for a key that was not passed.  A key passed with a value is
    passed with a value of its declared type. *)
Record Kwargs : Type := {
  kw_k_text : option Z;
  kw_k_images : option Z;
  kw_k_tables : option Z;
  kw_filter_metadata : option (gmap string MetaVal);
  kw_text_weight : option Q;
  kw_image_weight : option Q;
  kw_table_weight : option Q;
  kw_fetch_k : option Z;
  kw_lambda_mult : option Q;
  kw_include_text : option bool;
  kw_include_images : option bool;
  kw_include_tables : option bool
}.

Definition no_kwargs : Kwargs :=
  {| kw_k_text := None; kw_k_images := None; kw_k_tables := None;
     kw_filter_metadata := None;
     kw_text_weight := None; kw_image_weight := None; kw_table_weight := None;
     kw_fetch_k := None; kw_lambda_mult := None;
     kw_include_text := None; kw_include_images := None;
     kw_include_tables := None |}.

(** [kwargs.get(key, default_value)] *)
Definition kwargs_get {A : Type} (v : option A) (default_value : A) : A :=
  default default_value v.

(** The dictionary returned by [retrieve_multimodal]. *)
Record RetrievalOutput : Type := {
  r_query : string;
  r_method : string;
  r_results : Results;
  r_ranked_results : option (list Ranked);
  r_total_results : nat
}.

(** The loop that files each ranked document under its type. *)
Fixpoint group_ranked (ranked_results : list Ranked) (results : Results) : Results :=
  match ranked_results with
  | [] => results
  | (doc, _, type_) :: rest =>
      let results :=
        if String.eqb type_ "text" then
          {| text := text results ++ [doc];
             images := images results; tables := tables results |}
        else if String.eqb type_ "image" then
          {| text := text results;
             images := images results ++ [doc]; tables := tables results |}
        else if String.eqb type_ "table" then
          {| text := text results;
             images := images results; tables := tables results ++ [doc] |}
        else results in
      group_ranked rest results
  end.

Definition grouped_output (query method : string) (results : Results)
    : RetrievalOutput :=
  {| r_query := query; r_method := method; r_results := results;
     r_ranked_results := None;
     r_total_results :=
       (length (text results) + length (images results)
        + length (tables results))%nat |}.

Definition single_output (query method : string) (results : Results)
    (docs : list Document) : RetrievalOutput :=
  {| r_query := query; r_method := method; r_results := results;
     r_ranked_results := None;
     r_total_results := length docs |}.

(** [retrieve_multimodal(query, config, method, k, **kwargs)].  The
    retriever stands for the configuration it is built from. *)
Definition retrieve_multimodal (query : string) (retriever : MultimodalRetriever)
    (method : string) (k : Z) (kwargs : Kwargs) : outcome RetrievalOutput :=
  if String.eqb method "all" then
    let results :=
      retrieve_all retriever query
        (kwargs_get (kw_k_text kwargs) k)
        (kwargs_get (kw_k_images kwargs) (Z.max 2 (k / 2)))
        (kwargs_get (kw_k_tables kwargs) (Z.max 2 (k / 2)))
        (kw_filter_metadata kwargs) in
    Return (grouped_output query method results)
  else if String.eqb method "hybrid" then
    let ranked_results :=
      retrieve_hybrid_ranked retriever query k
        (kwargs_get (kw_text_weight kwargs) (1 # 2)%Q)
        (kwargs_get (kw_image_weight kwargs) (1 # 4)%Q)
        (kwargs_get (kw_table_weight kwargs) (1 # 4)%Q) in
    let results :=
      group_ranked ranked_results {| text := []; images := []; tables := [] |} in
    Return {| r_query := query; r_method := method; r_results := results;
              r_ranked_results := Some ranked_results;
              r_total_results := length ranked_results |}
  else if String.eqb method "mmr" then
    let results :=
      retrieve_mmr retriever query k
        (kwargs_get (kw_fetch_k kwargs) (k * 3))
        (kwargs_get (kw_lambda_mult kwargs) (1 # 2)%Q)
        (kwargs_get (kw_include_text kwargs) true)
        (kwargs_get (kw_include_images kwargs) true)
        (kwargs_get (kw_include_tables kwargs) true) in
    Return (grouped_output query method results)
  else if String.eqb method "text_only" then
    match retrieve_by_type_only retriever query "text" k with
    | Return docs =>
        Return (single_output query method
                  {| text := docs; images := []; tables := [] |} docs)
    | Raise e => Raise e
    end
  else if String.eqb method "image_only" then
    match retrieve_by_type_only retriever query "image" k with
    | Return docs =>
        Return (single_output query method
                  {| text := []; images := docs; tables := [] |} docs)
    | Raise e => Raise e
    end
  else if String.eqb method "table_only" then
    match retrieve_by_type_only retriever query "table" k with
    | Return docs =>
        Return (single_output query method
                  {| text := []; images := []; tables := docs |} docs)
    | Raise e => Raise e
    end
  else Raise (ValueError ("Unknown method: " +:+ method)).

(** An entry of the list returned by [get_unique_source_pdfs]. *)
Record SourcePdf : Type := {
  url : MetaVal;
  storage_path : MetaVal;
  filename : MetaVal;
  bucket : MetaVal
}.

(** [doc.metadata.get("source_pdf_url") or doc.metadata.get("pdf_url")] *)
Definition doc_pdf_url (doc : Document) : option MetaVal :=
  py_or (metadata doc !! "source_pdf_url") (metadata doc !! "pdf_url").

(** [doc.metadata.get("source_pdf_path") or doc.metadata.get("pdf_storage_path")] *)
Definition doc_pdf_path (doc : Document) : option MetaVal :=
  py_or (metadata doc !! "source_pdf_path") (metadata doc !! "pdf_storage_path").

(** [key in pdfs] for the insertion-ordered dictionary [pdfs]. *)
Definition dict_contains (key : MetaVal) (pdfs : list (MetaVal * SourcePdf)) : bool :=
  existsb (fun kv => py_eqb (fst kv) key) pdfs.

(** The dictionary stored under [pdf_url] for the document [doc]. *)
Definition pdf_entry (pdf_url : MetaVal) (doc : Document) : SourcePdf :=
  {| url := pdf_url;
     storage_path := default (MStr "") (py_or (doc_pdf_path doc) (Some (MStr "")));
     filename := default (MStr "") (metadata doc !! "pdf_original_filename");
     bucket := default (MStr "") (metadata doc !! "document_bucket") |}.

(** The body of the inner loop: one document is examined.
    [if pdf_url and pdf_url not in pdfs: pdfs[pdf_url] = {...}] *)
Definition add_source_pdf (pdfs : list (MetaVal * SourcePdf)) (doc : Document)
    : list (MetaVal * SourcePdf) :=
  match doc_pdf_url doc with
  | Some pdf_url =>
      if truthy pdf_url && negb (dict_contains pdf_url pdfs)
      then pdfs ++ [(pdf_url, pdf_entry pdf_url doc)]
      else pdfs
  | None => pdfs
  end.

(** [for doc in results[type_key]: ...] *)
Definition add_source_pdfs (pdfs : list (MetaVal * SourcePdf))
    (docs : list Document) : list (MetaVal * SourcePdf) :=
  foldl add_source_pdf pdfs docs.

Definition get_unique_source_pdfs (result : RetrievalOutput) : list SourcePdf :=
  let pdfs := [] in
  let results := r_results result in
  let pdfs := add_source_pdfs pdfs (text results) in
  let pdfs := add_source_pdfs pdfs (images results) in
  let pdfs := add_source_pdfs pdfs (tables results) in
  map snd pdfs.

(** *** Vocabulary of the properties of retrieval *)

(** The ranking order: the weighted score of [x] is at most that of [y]. *)
Definition score_le (x y : Ranked) : Prop :=
  (ranked_score x <= ranked_score y)%Q.


(** [x] carries the type tag [type_]. *)
Definition has_type (type_ : string) (x : Ranked) : bool :=
  String.eqb (ranked_type x) type_.


(** The documents of a result, group after group. *)
Definition all_docs (results : Results) : list Document :=
  text results ++ images results ++ tables results.

(** The source-PDF URL a document contributes, if it has a usable one. *)
Definition seen_url (doc : Document) : option MetaVal :=
  match doc_pdf_url doc with
  | Some u => if truthy u then Some u else None
  | None => None
  end.

(** [doc] references the PDF at URL [u]. *)
Definition refers_to (doc : Document) (u : MetaVal) : Prop :=
  exists v, seen_url doc = Some v /\ py_eqb v u = true.

(** The scored search of one collection inside [try]. *)
Definition scored_hits (store : Chroma) (query : string) (k : Z)
    : list (Document * Q) :=
  try_search (similarity_search_with_score store query k).

(** [x] is a hit of one of the three scored searches, with the raw score
    multiplied by the weight of its type and tagged with that type. *)
Definition weighted_hit (self : MultimodalRetriever) (query : string) (k : Z)
    (text_weight image_weight table_weight : Q) (x : Ranked) : Prop :=
  exists (doc : Document) (score : Q),
    (x = (doc, (score * text_weight)%Q, "text")
     /\ (doc, score) ∈ scored_hits (text_store self) query k)
    \/ (x = (doc, (score * image_weight)%Q, "image")
        /\ (doc, score) ∈ scored_hits (image_store self) query k)
    \/ (x = (doc, (score * table_weight)%Q, "table")
        /\ (doc, score) ∈ scored_hits (table_store self) query k).

(** The ranking carries no other tag than the three type names. *)
Definition known_type (x : Ranked) : Prop :=
  ranked_type x = "text" \/ ranked_type x = "image" \/ ranked_type x = "table".

(** The entry [e] was built from the document at position [p] of [docs],
    and no earlier document of [docs] references the URL of [e]. *)
Definition first_reference (docs : list Document) (p : nat) (e : SourcePdf)
    : Prop :=
  exists doc : Document,
    docs !! p = Some doc
    /\ seen_url doc = Some (url e)
    /\ e = pdf_entry (url e) doc
    /\ forall (q : nat) (doc' : Document),
         docs !! q = Some doc' -> refers_to doc' (url e) -> (p <= q)%nat.

(** What holds of the dictionary [pdfs] once the documents [docs] have
    been examined: the entries were built at strictly increasing positions
    [ps], each from the first document that references its key, and every
    usable URL of [docs] is a key. *)
Definition examined (docs : list Document) (ps : list nat)
    (pdfs : list (MetaVal * SourcePdf)) : Prop :=
  Forall2 (fun p kv => fst kv = url (snd kv) /\ first_reference docs p (snd kv))
    ps pdfs
  /\ StronglySorted lt ps
  /\ Forall (fun p => (p < length docs)%nat) ps
  /\ forall doc u, doc ∈ docs -> seen_url doc = Some u ->
       dict_contains u pdfs = true.


(** *** Further vocabulary *)



(** The number of hits the three scored searches deliver. *)
Definition hit_count (self : MultimodalRetriever) (query : string) (k : Z) : nat :=
  (length (scored_hits (text_store self) query k)
   + length (scored_hits (image_store self) query k)
   + length (scored_hits (table_store self) query k))%nat.



End Retrieval.

(** ** core/generation.py *)

Module Generation.

Import Retrieval.

Record GenerationConfig : Type := {
  openai_api_key : string;
  model : string;
  temperature : Q;
  max_tokens : Z;
  use_vision : bool;
  vision_model : string
}.

(** [MultimodalGenerator]: the two chat clients it builds belong to the
    [World] below. *)
Record MultimodalGenerator : Type := {
  config : GenerationConfig
}.

Definition self_use_vision (self : MultimodalGenerator) : bool :=
  use_vision (config self).

(** The three pairs of system prompt and user template.  Their texts are
    constants of the source; a prompt is identified by the method it
    belongs to and by the branch of [language.lower() == "indonesian"]. *)
Inductive PromptKind : Type :=
| SimplePrompt
| CitationsPrompt
| StructuredPrompt.

(** What [vision_llm.invoke] receives: the vision prompt (one of two
    texts, with the query inserted) and the image as a data URL. *)
Record VisionCall : Type := {
  vision_indonesian : bool;
  vision_query : string;
  vision_image_url : string
}.

(** What [chain.invoke] receives: the prompt and its two variables. *)
Record LlmCall : Type := {
  llm_kind : PromptKind;
  llm_indonesian : bool;
  llm_context : string;
  llm_query : string
}.

(** Calls that leave the process. *)
Inductive Event : Type :=
| HttpGet (target : string)
| VisionInvoke (call : VisionCall)
| LlmInvoke (call : LlmCall).

(** The collaborators.  The answer to a call may depend on every call made
    before it. *)
Record World : Type := {
  requests_get : list Event -> string -> outcome string;
  b64encode : string -> string;
  vision_llm_invoke : list Event -> VisionCall -> outcome string;
  llm_invoke : list Event -> LlmCall -> outcome string
}.

(** Computations that call collaborators: the calls made so far are
    threaded through. *)
Definition M (A : Type) : Type := list Event -> A * list Event.

#[export] Instance M_ret : MRet M := fun A a history => (a, history).

#[export] Instance M_bind : MBind M := fun A B f m history =>
  let '(a, history') := m history in f a history'.

#[export] Instance M_fmap : FMap M := fun A B f m history =>
  let '(a, history') := m history in (f a, history').

(** One call: its answer is computed from the history, and the call is
    appended to it. *)
Definition call {A : Type} (e : Event) (answer : list Event -> A) : M A :=
  fun history => (answer history, history ++ [e]).

(** An entry of the [sources] list. *)
Record Source : Type := {
  s_type : string;
  s_id : string;
  s_content_preview : option string;
  s_description : option string;
  s_url : option MetaVal;
  s_page : MetaVal;
  s_analyzed_with_vision : option bool;
  s_has_html : option MetaVal;
  s_metadata : gmap string MetaVal
}.

Record SourcesCount : Type := {
  count_text : nat;
  count_images : nat;
  count_tables : nat
}.

(** The dictionary returned by the [generate_*] methods and by
    [generate_answer]; an absent key is [None]. *)
Record Answer : Type := {
  g_answer : string;
  g_has_context : bool;
  g_sources : option (list Source);
  g_error : option string;
  g_model : option string;
  g_vision_model : option (option string);
  g_language : option string;
  g_sources_count : option SourcesCount
}.

Section Generator.

Variable world : World.

Definition _fetch_image_as_base64 (self : MultimodalGenerator) (target : string)
    : M (option string) :=
  response ← call (HttpGet target) (fun history => requests_get world history target);
  match response with
  | Return image_data => mret (Some (b64encode world image_data))
  | Raise _ => mret None
  end.

(** The whole body is inside [try]; a URL that is not a string fails at
    [image_url[:80]], before any fetch. *)
Definition _analyze_image_with_vision (self : MultimodalGenerator)
    (image_url : MetaVal) (query : string) (language : string)
    : M (option string) :=
  match image_url with
  | MStr target =>
      base64_image ← _fetch_image_as_base64 self target;
      match base64_image with
      | None => mret None
      | Some "" => mret None
      | Some data =>
          let message :=
            {| vision_indonesian := String.eqb (lower language) "indonesian";
               vision_query := query;
               vision_image_url := "data:image/jpeg;base64," +:+ data |} in
          response ← call (VisionInvoke message)
                       (fun history => vision_llm_invoke world history message);
          match response with
          | Return analysis => mret (Some analysis)
          | Raise _ => mret None
          end
      end
  | _ => mret None
  end.

Definition _escape_curly_braces (self : MultimodalGenerator) (text_ : string)
    : string :=
  if String.eqb text_ "" then text_
  else str_replace "}"%char "}}" (str_replace "{"%char "{{" text_).

Definition format_text (self : MultimodalGenerator) (item : nat * Document)
    : string :=
  let '(i, doc) := item in
  let page := default (MStr "N/A") (metadata doc !! "chunk_page_number") in
  let content := _escape_curly_braces self (page_content doc) in
  "[TEXT-" +:+ str_nat i +:+ "] (Page " +:+ str_meta page +:+ ")" +:+ nl
  +:+ content +:+ nl.

(** The three strings one image appends to [context_parts]. *)
Definition format_image (self : MultimodalGenerator) (query : string)
    (use_vision : bool) (language : string) (item : nat * Document)
    : M (list string) :=
  let '(i, doc) := item in
  let target := default (MStr "") (metadata doc !! "supabase_url") in
  let page := default (MStr "N/A") (metadata doc !! "img_page_number") in
  let head := "[IMAGE-" +:+ str_nat i +:+ "] (Page " +:+ str_meta page +:+ ")" +:+ nl in
  body ←
    (if use_vision && truthy target && self_use_vision self then
       vision_analysis ← _analyze_image_with_vision self target query language;
       match vision_analysis with
       | Some analysis =>
           if negb (String.eqb analysis "") then
             mret ("Visual Analysis (Real-time): " +:+ analysis +:+ nl)
           else
             mret ("Visual Analysis (Stored): "
                   +:+ _escape_curly_braces self (page_content doc) +:+ nl)
       | None =>
           mret ("Visual Analysis (Stored): "
                 +:+ _escape_curly_braces self (page_content doc) +:+ nl)
       end
     else
       mret ("Visual Analysis: "
             +:+ _escape_curly_braces self (page_content doc) +:+ nl));
  mret [head; body; "URL: " +:+ str_meta target +:+ nl].

Definition format_table (self : MultimodalGenerator) (item : nat * Document)
    : string :=
  let '(i, doc) := item in
  let page := default (MStr "N/A") (metadata doc !! "table_page_number") in
  let has_html := default (MBool false) (metadata doc !! "has_html") in
  let content := _escape_curly_braces self (page_content doc) in
  "[TABLE-" +:+ str_nat i +:+ "] (Page " +:+ str_meta page +:+ ", Format: "
  +:+ (if truthy has_html then "HTML" else "Plain Text") +:+ ")" +:+ nl
  +:+ content +:+ nl.

(** [context_parts] when the loop over the three groups ends. *)
Definition context_parts (self : MultimodalGenerator) (results : Results)
    (query : string) (use_vision : bool) (language : string)
    : M (list string) :=
  let text_parts :=
    match text results with
    | [] => []
    | _ => ("=== TEXT CONTENT ===" +:+ nl)
           :: map (format_text self) (enumerate 1 (text results))
    end in
  image_parts ←
    match images results with
    | [] => mret []
    | _ =>
        parts ← mapM (format_image self query use_vision language)
                  (enumerate 1 (images results));
        mret ((nl +:+ "=== IMAGES ===" +:+ nl) :: concat parts)
    end;
  let table_parts :=
    match tables results with
    | [] => []
    | _ => (nl +:+ "=== TABLES ===" +:+ nl)
           :: map (format_table self) (enumerate 1 (tables results))
    end in
  mret (text_parts ++ image_parts ++ table_parts).

Definition _format_multimodal_context (self : MultimodalGenerator)
    (results : Results) (query : string) (use_vision : bool)
    (language : string) : M string :=
  parts ← context_parts self results query use_vision language;
  mret (join nl parts).

Definition text_source (self : MultimodalGenerator) (item : nat * Document)
    : Source :=
  let '(i, doc) := item in
  {| s_type := "text";
     s_id := "TEXT-" +:+ str_nat i;
     s_content_preview := Some (str_take 200 (page_content doc) +:+ "...");
     s_description := None;
     s_url := None;
     s_page := default (MStr "N/A") (metadata doc !! "chunk_page_number");
     s_analyzed_with_vision := None;
     s_has_html := None;
     s_metadata := metadata doc |}.

Definition image_source (self : MultimodalGenerator) (item : nat * Document)
    : Source :=
  let '(i, doc) := item in
  {| s_type := "image";
     s_id := "IMAGE-" +:+ str_nat i;
     s_content_preview := None;
     s_description := Some (page_content doc);
     s_url := Some (default (MStr "") (metadata doc !! "supabase_url"));
     s_page := default (MStr "N/A") (metadata doc !! "img_page_number");
     s_analyzed_with_vision := Some (self_use_vision self);
     s_has_html := None;
     s_metadata := metadata doc |}.

Definition table_source (self : MultimodalGenerator) (item : nat * Document)
    : Source :=
  let '(i, doc) := item in
  {| s_type := "table";
     s_id := "TABLE-" +:+ str_nat i;
     s_content_preview := Some (str_take 300 (page_content doc) +:+ "...");
     s_description := None;
     s_url := None;
     s_page := default (MStr "N/A") (metadata doc !! "table_page_number");
     s_analyzed_with_vision := None;
     s_has_html := Some (default (MBool false) (metadata doc !! "has_html"));
     s_metadata := metadata doc |}.

Definition _extract_sources (self : MultimodalGenerator) (results : Results)
    : list Source :=
  map (text_source self) (enumerate 1 (text results))
  ++ map (image_source self) (enumerate 1 (images results))
  ++ map (table_source self) (enumerate 1 (tables results)).

Definition _extract_sources_with_ids (self : MultimodalGenerator)
    (results : Results) : list Source :=
  _extract_sources self results.

(** The prompt piped into the model, with the two variables passed to
    [chain.invoke]: the prompt texts are chosen by the method and the
    language. *)
Definition chain_input (kind : PromptKind) (language context escaped_query : string)
    : LlmCall :=
  {| llm_kind := kind;
     llm_indonesian := String.eqb (lower language) "indonesian";
     llm_context := context;
     llm_query := escaped_query |}.

(** [chain.invoke({"context": context, "query": escaped_query})] inside
    [try]. *)
Definition invoke_chain (kind : PromptKind) (language context escaped_query : string)
    : M (outcome string) :=
  let prompt := chain_input kind language context escaped_query in
  call (LlmInvoke prompt) (fun history => llm_invoke world history prompt).

(** The value of the ["vision_model"] key of a successful answer. *)
Definition vision_model_used (self : MultimodalGenerator) : option string :=
  if self_use_vision self then Some (vision_model (config self)) else None.

Definition generate_simple (self : MultimodalGenerator) (query : string)
    (retrieval_results : Results) (include_sources : bool) (language : string)
    : M Answer :=
  context ← _format_multimodal_context self retrieval_results query
              (self_use_vision self) language;
  if String.eqb (strip context) "" then
    mret {| g_answer :=
              "Maaf, saya tidak menemukan informasi yang relevan untuk menjawab pertanyaan Anda.";
            g_has_context := false;
            g_sources := Some [];
            g_error := None; g_model := None; g_vision_model := None;
            g_language := None; g_sources_count := None |}
  else
    let escaped_query := _escape_curly_braces self query in
    response ← invoke_chain SimplePrompt language context escaped_query;
    match response with
    | Raise e =>
        mret {| g_answer :=
                  "Maaf, terjadi error saat generate jawaban: " +:+ str_exn e;
                g_has_context := true;
                g_sources := None;
                g_error := Some (str_exn e);
                g_model := None; g_vision_model := None;
                g_language := None; g_sources_count := None |}
    | Return answer =>
        mret {| g_answer := answer;
                g_has_context := true;
                g_sources :=
                  if include_sources
                  then Some (_extract_sources self retrieval_results)
                  else None;
                g_error := None;
                g_model := Some (model (config self));
                g_vision_model := Some (vision_model_used self);
                g_language := Some language;
                g_sources_count :=
                  Some {| count_text := length (text retrieval_results);
                          count_images := length (images retrieval_results);
                          count_tables := length (tables retrieval_results) |} |}
    end.

Definition generate_with_citations (self : MultimodalGenerator) (query : string)
    (retrieval_results : Results) (language : string) : M Answer :=
  context ← _format_multimodal_context self retrieval_results query
              (self_use_vision self) language;
  if String.eqb (strip context) "" then
    mret {| g_answer := "Maaf, saya tidak menemukan informasi yang relevan.";
            g_has_context := false;
            g_sources := Some [];
            g_error := None; g_model := None; g_vision_model := None;
            g_language := None; g_sources_count := None |}
  else
    let escaped_query := _escape_curly_braces self query in
    response ← invoke_chain CitationsPrompt language context escaped_query;
    match response with
    | Raise e =>
        mret {| g_answer := "Error: " +:+ str_exn e;
                g_has_context := true;
                g_sources := None;
                g_error := Some (str_exn e);
                g_model := None; g_vision_model := None;
                g_language := None; g_sources_count := None |}
    | Return answer =>
        mret {| g_answer := answer;
                g_has_context := true;
                g_sources := Some (_extract_sources_with_ids self retrieval_results);
                g_error := None;
                g_model := Some (model (config self));
                g_vision_model := Some (vision_model_used self);
                g_language := Some language;
                g_sources_count := None |}
    end.

Definition generate_structured (self : MultimodalGenerator) (query : string)
    (retrieval_results : Results) (language : string) : M Answer :=
  context ← _format_multimodal_context self retrieval_results query
              (self_use_vision self) language;
  if String.eqb (strip context) "" then
    mret {| g_answer := "Tidak ada informasi yang ditemukan.";
            g_has_context := false;
            g_sources := None;
            g_error := None; g_model := None; g_vision_model := None;
            g_language := None; g_sources_count := None |}
  else
    let escaped_query := _escape_curly_braces self query in
    response ← invoke_chain StructuredPrompt language context escaped_query;
    match response with
    | Raise e =>
        mret {| g_answer := "Error: " +:+ str_exn e;
                g_has_context := true;
                g_sources := None;
                g_error := Some (str_exn e);
                g_model := None; g_vision_model := None;
                g_language := None; g_sources_count := None |}
    | Return answer =>
        mret {| g_answer := answer;
                g_has_context := true;
                g_sources := Some (_extract_sources self retrieval_results);
                g_error := None;
                g_model := Some (model (config self));
                g_vision_model := Some (vision_model_used self);
                g_language := Some language;
                g_sources_count := None |}
    end.

(** The body of [try] in [generate_answer]: an unknown method raises. *)
Definition dispatch (generator : MultimodalGenerator) (query : string)
    (retrieval_results : Results) (method language : string)
    (include_sources : bool) : M (outcome Answer) :=
  if String.eqb method "simple" then
    Return <$> generate_simple generator query retrieval_results
                 include_sources language
  else if String.eqb method "citations" then
    Return <$> generate_with_citations generator query retrieval_results language
  else if String.eqb method "structured" then
    Return <$> generate_structured generator query retrieval_results language
  else mret (Raise (ValueError ("Unknown method: " +:+ method))).

(** [generate_answer]: whatever the body of [try] raises is caught by
    [except Exception] and turned into an answer that is returned. *)
Definition generate_answer (query : string) (retrieval_results : Results)
    (config : GenerationConfig) (method language : string)
    (include_sources : bool) : M (outcome Answer) :=
  let generator := {| config := config |} in
  attempt ← dispatch generator query retrieval_results method language
              include_sources;
  match attempt with
  | Return result => mret (Return result)
  | Raise e =>
      mret (Return {| g_answer := "Maaf, terjadi error: " +:+ str_exn e;
                      g_has_context := false;
                      g_sources := None;
                      g_error := Some (str_exn e);
                      g_model := None; g_vision_model := None;
                      g_language := None; g_sources_count := None |})
  end.

End Generator.

(** *** Vocabulary of the properties of generation *)

(** The three generation methods and the prompt each one uses. *)
Definition prompt_of_method (method : string) : option PromptKind :=
  if String.eqb method "simple" then Some SimplePrompt
  else if String.eqb method "citations" then Some CitationsPrompt
  else if String.eqb method "structured" then Some StructuredPrompt
  else None.

(** All three groups are empty. *)
Definition no_results (results : Results) : Prop :=
  text results = [] /\ images results = [] /\ tables results = [].

(** Every character of [s] is white space. *)
Fixpoint all_space (s : string) : bool :=
  match s with
  | "" => true
  | String c s' => is_space c && all_space s'
  end.

(** The three strings of an image whose stored description is used
    (the branch taken when no live analysis is attempted). *)
Definition stored_image_parts (self : MultimodalGenerator) (item : nat * Document)
    : list string :=
  let '(i, doc) := item in
  let target := default (MStr "") (metadata doc !! "supabase_url") in
  let page := default (MStr "N/A") (metadata doc !! "img_page_number") in
  [ "[IMAGE-" +:+ str_nat i +:+ "] (Page " +:+ str_meta page +:+ ")" +:+ nl;
    "Visual Analysis: " +:+ _escape_curly_braces self (page_content doc) +:+ nl;
    "URL: " +:+ str_meta target +:+ nl ].

(** [context_parts] when every image uses its stored description. *)
Definition stored_context_parts (self : MultimodalGenerator) (results : Results)
    : list string :=
  match text results with
  | [] => []
  | _ => ("=== TEXT CONTENT ===" +:+ nl)
         :: map (format_text self) (enumerate 1 (text results))
  end
  ++ match images results with
     | [] => []
     | _ => (nl +:+ "=== IMAGES ===" +:+ nl)
            :: concat (map (stored_image_parts self) (enumerate 1 (images results)))
     end
  ++ match tables results with
     | [] => []
     | _ => (nl +:+ "=== TABLES ===" +:+ nl)
            :: map (format_table self) (enumerate 1 (tables results))
     end.


(** What precedes the error message in the answer when the language model
    fails, by method. *)
Definition error_prefix (kind : PromptKind) : string :=
  match kind with
  | SimplePrompt => "Maaf, terjadi error saat generate jawaban: "
  | CitationsPrompt => "Error: "
  | StructuredPrompt => "Error: "
  end.

(** *** Further vocabulary *)

(** The number of curly braces in a text. *)
Fixpoint count_braces (s : string) : nat :=
  match s with
  | "" => 0
  | String c s' =>
      ((if Ascii.eqb c "{" || Ascii.eqb c "}" then 1 else 0)
       + count_braces s')%nat
  end.

(** A text read with every doubled brace taken as a single one. *)
Fixpoint halve_braces (s : string) : string :=
  match s with
  | "" => ""
  | String c rest =>
      match rest with
      | String c' rest' =>
          if (Ascii.eqb c "{" && Ascii.eqb c' "{")
             || (Ascii.eqb c "}" && Ascii.eqb c' "}")
          then String c (halve_braces rest')
          else String c (halve_braces rest)
      | "" => String c ""
      end
  end.

(** The fetch of [target] delivers nothing to analyse: the request raises,
    or the encoded data is empty. *)
Definition fetch_fails (world : World) (history : list Event) (target : string)
    : Prop :=
  match requests_get world history target with
  | Raise _ => True
  | Return image_data => b64encode world image_data = ""
  end.

(** [e] is an invocation of the language model. *)
Definition is_llm_call (e : Event) : bool :=
  match e with
  | LlmInvoke _ => true
  | _ => false
  end.


(** Two parts of a context that are equal or are both the analysis line of
    an image. *)
Definition part_variant (p q : string) : Prop :=
  p = q
  \/ (String.prefix "Visual Analysis" p = true
      /\ String.prefix "Visual Analysis" q = true).

(** The address fetched for an image when a live analysis is attempted:
    its [supabase_url], when that is a non-empty string. *)
Definition fetch_target (doc : Document) : option string :=
  match default (MStr "") (metadata doc !! "supabase_url") with
  | MStr target => if String.eqb target "" then None else Some target
  | _ => None
  end.

(** The three strings of an image when live analysis is enabled and every
    attempt falls back to the stored description. *)
Definition fallback_image_parts (self : MultimodalGenerator)
    (item : nat * Document) : list string :=
  let '(i, doc) := item in
  let target := default (MStr "") (metadata doc !! "supabase_url") in
  let page := default (MStr "N/A") (metadata doc !! "img_page_number") in
  [ "[IMAGE-" +:+ str_nat i +:+ "] (Page " +:+ str_meta page +:+ ")" +:+ nl;
    (if truthy target then "Visual Analysis (Stored): " else "Visual Analysis: ")
    +:+ _escape_curly_braces self (page_content doc) +:+ nl;
    "URL: " +:+ str_meta target +:+ nl ].

(** [context_parts] with [fallback_image_parts] for the images. *)
Definition fallback_context_parts (self : MultimodalGenerator) (results : Results)
    : list string :=
  match text results with
  | [] => []
  | _ => ("=== TEXT CONTENT ===" +:+ nl)
         :: map (format_text self) (enumerate 1 (text results))
  end
  ++ match images results with
     | [] => []
     | _ => (nl +:+ "=== IMAGES ===" +:+ nl)
            :: concat (map (fallback_image_parts self)
                         (enumerate 1 (images results)))
     end
  ++ match tables results with
     | [] => []
     | _ => (nl +:+ "=== TABLES ===" +:+ nl)
            :: map (format_table self) (enumerate 1 (tables results))
     end.


(** The ["sources"] entry of a successful answer, by method. *)
Definition sources_of_success (kind : PromptKind) (include_sources : bool)
    (sources : list Source) : option (list Source) :=
  match kind with
  | SimplePrompt => if include_sources then Some sources else None
  | CitationsPrompt => Some sources
  | StructuredPrompt => Some sources
  end.

(** The ["sources_count"] entry of a successful answer, by method. *)
Definition sources_count_of_success (kind : PromptKind) (results : Results)
    : option SourcesCount :=
  match kind with
  | SimplePrompt =>
      Some {| count_text := length (text results);
              count_images := length (images results);
              count_tables := length (tables results) |}
  | CitationsPrompt => None
  | StructuredPrompt => None
  end.

End Generation.

(** ** app/main.py: the query endpoint *)

Module Api.

Import Retrieval Generation.

(** The attributes of [Settings] the endpoint reads. *)
Record Settings : Type := {
  OPENAI_API_KEY : string;
  LLM_MODEL : string;
  VISION_MODEL : string;
  MAX_QUERY_LENGTH : Z;
  USE_VISION : bool
}.

(** The validator of [k_text], [k_images] and [k_tables]: a missing value
    becomes [k]. *)
Definition set_default_k (v : option Z) (k : Z) : Z :=
  match v with
  | None => k
  | Some v => v
  end.

(** [QueryRequest] as the endpoint receives it, after validation: the
    three methods are strings ([use_enum_values]), and [set_default_k] has
    filled in the three per-type counts. *)
Record QueryRequest : Type := {
  req_query : string;
  req_retrieval_method : string;
  req_generation_method : string;
  req_language : string;
  req_k : Z;
  req_k_text : Z;
  req_k_images : Z;
  req_k_tables : Z;
  req_text_weight : Q;
  req_image_weight : Q;
  req_table_weight : Q;
  req_lambda_mult : Q;
  req_include_sources : bool;
  req_include_source_pdfs : bool;
  req_use_vision : option bool
}.

(** [QueryResponse], without [processing_time_seconds] (a clock reading). *)
Record QueryResponse : Type := {
  resp_status : string;
  resp_query : string;
  resp_answer : string;
  resp_retrieval_method : string;
  resp_generation_method : string;
  resp_language : string;
  resp_vision_used : bool;
  resp_sources_count : SourcesCount;
  resp_sources : option (list Source);
  resp_source_pdfs : option (list SourcePdf);
  resp_total_results : nat
}.

(** What the endpoint does: it returns a response or raises
    [HTTPException(status_code, detail)]. *)
Inductive http_outcome : Type :=
| Respond (response : QueryResponse)
| HTTPException (status_code : Z) (detail : string).

(** [{"text": 0, "images": 0, "tables": 0}] *)
Definition zero_counts : SourcesCount :=
  {| count_text := 0; count_images := 0; count_tables := 0 |}.

(** [retrieval_kwargs] without the entry ["k"], which is passed as the
    parameter [k]. *)
Definition retrieval_kwargs (request : QueryRequest) : Kwargs :=
  if String.eqb (req_retrieval_method request) "all" then
    {| kw_k_text := Some (req_k_text request);
       kw_k_images := Some (req_k_images request);
       kw_k_tables := Some (req_k_tables request);
       kw_filter_metadata := None;
       kw_text_weight := None; kw_image_weight := None; kw_table_weight := None;
       kw_fetch_k := None; kw_lambda_mult := None;
       kw_include_text := None; kw_include_images := None;
       kw_include_tables := None |}
  else if String.eqb (req_retrieval_method request) "hybrid" then
    {| kw_k_text := None; kw_k_images := None; kw_k_tables := None;
       kw_filter_metadata := None;
       kw_text_weight := Some (req_text_weight request);
       kw_image_weight := Some (req_image_weight request);
       kw_table_weight := Some (req_table_weight request);
       kw_fetch_k := None; kw_lambda_mult := None;
       kw_include_text := None; kw_include_images := None;
       kw_include_tables := None |}
  else if String.eqb (req_retrieval_method request) "mmr" then
    {| kw_k_text := None; kw_k_images := None; kw_k_tables := None;
       kw_filter_metadata := None;
       kw_text_weight := None; kw_image_weight := None; kw_table_weight := None;
       kw_fetch_k := Some (req_k request * 3);
       kw_lambda_mult := Some (req_lambda_mult request);
       kw_include_text := None; kw_include_images := None;
       kw_include_tables := None |}
  else no_kwargs.

(** [query_documents(request)].  [settings] and [retrieval_config] are
    the module-level objects of the application; as in
    [retrieve_multimodal], the retriever stands for the configuration.
    Logging and the clock are left out, and building a [QueryResponse]
    from values of the declared types is taken to succeed. *)
Definition query_documents (settings : Settings)
    (retrieval_config : MultimodalRetriever) (world : World)
    (request : QueryRequest) : M http_outcome :=
  if Z.of_nat (String.length (req_query request)) >? MAX_QUERY_LENGTH settings
  then
    mret (HTTPException 400
            ("Query too long. Max: " +:+ str_Z (MAX_QUERY_LENGTH settings)
             +:+ " chars"))
  else
    match retrieve_multimodal (req_query request) retrieval_config
            (req_retrieval_method request) (req_k request)
            (retrieval_kwargs request) with
    | Raise e => mret (HTTPException 500 ("Query failed: " +:+ str_exn e))
    | Return retrieval_result =>
        let results := r_results retrieval_result in
        let total_found :=
          (length (text results) + length (images results)
           + length (tables results))%nat in
        let source_pdfs :=
          if req_include_source_pdfs request
          then Some (get_unique_source_pdfs retrieval_result)
          else None in
        if Nat.eqb total_found 0 then
          mret (Respond
                  {| resp_status := "success";
                     resp_query := req_query request;
                     resp_answer :=
                       "Maaf, tidak ada informasi relevan yang ditemukan untuk pertanyaan Anda.";
                     resp_retrieval_method := req_retrieval_method request;
                     resp_generation_method := req_generation_method request;
                     resp_language := req_language request;
                     resp_vision_used := false;
                     resp_sources_count := zero_counts;
                     resp_sources := Some [];
                     resp_source_pdfs := source_pdfs;
                     resp_total_results := 0 |})
        else
          let use_vision_now :=
            match req_use_vision request with
            | Some requested => requested
            | None => USE_VISION settings
            end in
          let gen_config :=
            {| openai_api_key := OPENAI_API_KEY settings;
               model := LLM_MODEL settings;
               temperature := (7 # 10)%Q;
               max_tokens := 2000;
               use_vision := use_vision_now;
               vision_model := VISION_MODEL settings |} in
          generated ← generate_answer world (req_query request) results
                        gen_config (req_generation_method request)
                        (req_language request) (req_include_sources request);
          match generated with
          | Raise e => mret (HTTPException 500 ("Query failed: " +:+ str_exn e))
          | Return answer_result =>
              mret (Respond
                      {| resp_status := "success";
                         resp_query := req_query request;
                         resp_answer := g_answer answer_result;
                         resp_retrieval_method := req_retrieval_method request;
                         resp_generation_method := req_generation_method request;
                         resp_language := req_language request;
                         resp_vision_used :=
                           use_vision_now
                           && negb (Nat.eqb (length (images results)) 0);
                         resp_sources_count :=
                           default zero_counts (g_sources_count answer_result);
                         resp_sources :=
                           if req_include_sources request
                           then g_sources answer_result
                           else None;
                         resp_source_pdfs := source_pdfs;
                         resp_total_results := total_found |})
          end
    end.

End Api.

(** ** Concrete collections, documents and collaborators

    Used to run the definitions above on explicit inputs. *)

Module Examples.

Import Retrieval Generation.

Definition doc_pdf : string := "https://x/doc.pdf".
Definition other_pdf : string := "https://x/other.pdf".

Definition text_a : Document :=
  {| page_content := "Q3 revenue grew {8%}";
     metadata := <["source_pdf_url" := MStr doc_pdf]>
                 (<["chunk_page_number" := MInt 4]> ∅) |}.

Definition text_b : Document :=
  {| page_content := "Costs were flat";
     metadata := <["pdf_url" := MStr doc_pdf]>
                 (<["source_pdf_url" := MStr ""]> ∅) |}.

Definition image_a : Document :=
  {| page_content := "A bar chart of revenue";
     metadata := <["source_pdf_url" := MStr other_pdf]>
                 (<["supabase_url" := MStr "https://x/img.png"]>
                 (<["img_page_number" := MInt 2]> ∅)) |}.

Definition table_a : Document :=
  {| page_content := "<table>Q3</table>";
     metadata := <["source_pdf_url" := MStr doc_pdf]>
                 (<["table_page_number" := MInt 5]>
                 (<["has_html" := MBool true]> ∅)) |}.

Definition no_url : Document :=
  {| page_content := "An orphan chunk"; metadata := ∅ |}.

(** A collection that answers every query with the same scored documents,
    nearest first, at most [k] of them. *)
Definition fixed_store (scored : list (Document * Q)) : Chroma :=
  {| similarity_search := fun _ k _ => Return (take (Z.to_nat k) (map fst scored));
     similarity_search_with_score := fun _ k => Return (take (Z.to_nat k) scored);
     max_marginal_relevance_search :=
       fun _ k _ _ => Return (take (Z.to_nat k) (map fst scored)) |}.

(** A collection that is down. *)
Definition broken_store : Chroma :=
  {| similarity_search := fun _ _ _ => Raise (Exception "collection unavailable");
     similarity_search_with_score := fun _ _ => Raise (Exception "collection unavailable");
     max_marginal_relevance_search :=
       fun _ _ _ _ => Raise (Exception "collection unavailable") |}.

Definition demo_retriever : MultimodalRetriever :=
  {| text_store := fixed_store [(text_a, 12 # 100); (text_b, 40 # 100)]%Q;
     image_store := fixed_store [(image_a, 24 # 100)]%Q;
     table_store := fixed_store [(table_a, 30 # 100)]%Q |}.

Definition degraded_retriever : MultimodalRetriever :=
  {| text_store := fixed_store [(text_a, 12 # 100)]%Q;
     image_store := broken_store;
     table_store := fixed_store [(table_a, 30 # 100)]%Q |}.

Definition demo_results : Results :=
  {| text := [text_a; text_b]; images := [image_a]; tables := [table_a] |}.


Definition demo_output : RetrievalOutput :=
  {| r_query := "What is the Q3 revenue?"; r_method := "all";
     r_results := demo_results; r_ranked_results := None;
     r_total_results := 4 |}.

(** Collaborators that all fail: the fetch and both models raise. *)
Definition failing_world : World :=
  {| requests_get := fun _ _ => Raise (Exception "connection refused");
     b64encode := fun data => data;
     vision_llm_invoke := fun _ _ => Raise (Exception "vision model down");
     llm_invoke := fun _ _ => Raise (Exception "rate limit exceeded") |}.

(** Collaborators that all answer. *)
Definition working_world : World :=
  {| requests_get := fun _ _ => Return "PNG";
     b64encode := fun data => data;
     vision_llm_invoke := fun _ _ => Return "The chart shows growth";
     llm_invoke := fun _ _ => Return "Revenue grew 8% [TEXT-1]" |}.

Definition vision_off : GenerationConfig :=
  {| openai_api_key := "sk-test"; model := "gpt-4o-mini";
     temperature := (7 # 10)%Q; max_tokens := 2000;
     use_vision := false; vision_model := "gpt-4o" |}.

Definition vision_on : GenerationConfig :=
  {| openai_api_key := "sk-test"; model := "gpt-4o-mini";
     temperature := (7 # 10)%Q; max_tokens := 2000;
     use_vision := true; vision_model := "gpt-4o" |}.

Definition demo_settings : Api.Settings :=
  {| Api.OPENAI_API_KEY := "sk-test"; Api.LLM_MODEL := "gpt-4o-mini";
     Api.VISION_MODEL := "gpt-4o"; Api.MAX_QUERY_LENGTH := 1000;
     Api.USE_VISION := true |}.

(** A request with the defaults of [QueryRequest], for a strategy and a
    generation method. *)
Definition demo_request (retrieval_method generation_method : string)
    : Api.QueryRequest :=
  {| Api.req_query := "What is the Q3 revenue?";
     Api.req_retrieval_method := retrieval_method;
     Api.req_generation_method := generation_method;
     Api.req_language := "English";
     Api.req_k := 5;
     Api.req_k_text := Api.set_default_k None 5;
     Api.req_k_images := Api.set_default_k None 5;
     Api.req_k_tables := Api.set_default_k None 5;
     Api.req_text_weight := (1 # 2)%Q;
     Api.req_image_weight := (1 # 4)%Q;
     Api.req_table_weight := (1 # 4)%Q;
     Api.req_lambda_mult := (1 # 2)%Q;
     Api.req_include_sources := true;
     Api.req_include_source_pdfs := true;
     Api.req_use_vision := None |}.

(** A retriever whose three collections are empty. *)
Definition empty_retriever : MultimodalRetriever :=
  {| text_store := fixed_store [];
     image_store := fixed_store [];
     table_store := fixed_store [] |}.

(** A retriever whose three collections are down. *)
Definition down_retriever : MultimodalRetriever :=
  {| text_store := broken_store;
     image_store := broken_store;
     table_store := broken_store |}.

End Examples.

(** ** Properties of retrieval *)

Module RetrievalProperties.

Import Retrieval.

(** *** The stable sort *)



#[local] Instance score_le_trans : Transitive score_le.
Proof. intros x y z. unfold score_le. apply Qle_trans. Qed.

Lemma sort_insert_perm (x : Ranked) (l : list Ranked) :
  sort_insert x l ≡ₚ x :: l.
Proof.
  induction l as [|y l IH]; simpl; [reflexivity|].
  destruct (Qlt_bool _ _); [|reflexivity].
  rewrite IH. apply perm_swap.
Qed.

Lemma sort_by_score_perm (l : list Ranked) : sort_by_score l ≡ₚ l.
Proof.
  induction l as [|x l IH]; simpl; [reflexivity|].
  rewrite sort_insert_perm. by rewrite IH.
Qed.



Lemma sorted_lookup {A : Type} (R : A -> A -> Prop) (l : list A)
    (i j : nat) (x y : A) :
  StronglySorted R l ->
  l !! i = Some x -> l !! j = Some y -> (i < j)%nat -> R x y.
Proof.
  intros Hs. revert i j.
  induction Hs as [|z l Hs IH Hall]; intros i j Hi Hj Hlt.
  - by rewrite lookup_nil in Hi.
  - destruct j as [|j]; [lia|].
    destruct i as [|i]; simpl in *.
    + injection Hi as <-.
      rewrite Forall_forall in Hall. apply Hall.
      by eapply list_elem_of_lookup_2.
    + apply (IH i j); [done|done|lia].
Qed.


Lemma slice_to_take {A : Type} (k : Z) (l : list A) :
  exists n : nat, slice_to k l = take n l.
Proof. unfold slice_to. destruct (k <? 0); eauto. Qed.

Lemma slice_to_nonneg {A : Type} (n : nat) (l : list A) :
  slice_to (Z.of_nat n) l = take n l.
Proof.
  unfold slice_to.
  destruct (Z.ltb_spec (Z.of_nat n) 0) as [E|E]; [lia|].
  by rewrite Nat2Z.id.
Qed.




(** *** The hybrid strategy *)

Lemma elem_of_weigh (weight : Q) (type_ : string)
    (hits : list (Document * Q)) (x : Ranked) :
  x ∈ weigh weight type_ hits ->
  exists doc score, x = (doc, (score * weight)%Q, type_) /\ (doc, score) ∈ hits.
Proof.
  unfold weigh. intros Hx.
  apply list_elem_of_fmap in Hx as [[doc score] [-> Hin]].
  by exists doc, score.
Qed.

Lemma candidates_weighted (self : MultimodalRetriever) (query : string) (k : Z)
    (tw iw bw : Q) (x : Ranked) :
  x ∈ hybrid_candidates self query k tw iw bw ->
  weighted_hit self query k tw iw bw x.
Proof.
  unfold hybrid_candidates, weighted_hit, scored_hits.
  rewrite !elem_of_app.
  intros [Hx|[Hx|Hx]]; apply elem_of_weigh in Hx as (doc & score & -> & Hin);
    exists doc, score; auto.
Qed.

Lemma ranked_prefix_of_sorted (self : MultimodalRetriever) (query : string)
    (k : Z) (tw iw bw : Q) :
  retrieve_hybrid_ranked self query k tw iw bw
  `prefix_of` sort_by_score (hybrid_candidates self query k tw iw bw).
Proof.
  unfold retrieve_hybrid_ranked.
  destruct (slice_to_take k (sort_by_score (hybrid_candidates self query k tw iw bw)))
    as [n ->].
  apply prefix_take.
Qed.

Lemma ranked_weighted (self : MultimodalRetriever) (query : string) (k : Z)
    (tw iw bw : Q) :
  Forall (weighted_hit self query k tw iw bw)
    (retrieve_hybrid_ranked self query k tw iw bw).
Proof.
  apply Forall_forall. intros x Hx.
  apply candidates_weighted.
  rewrite <- (sort_by_score_perm (hybrid_candidates self query k tw iw bw)).
  destruct (ranked_prefix_of_sorted self query k tw iw bw) as [rest ->].
  apply elem_of_app. by left.
Qed.




(** *** Counting the results *)

Lemma length_slice_to_le {A : Type} (k : Z) (l : list A) :
  0 <= k -> Z.of_nat (length (slice_to k l)) <= k.
Proof.
  intros Hk. unfold slice_to.
  destruct (Z.ltb_spec k 0) as [E|E]; [lia|].
  rewrite length_take. lia.
Qed.

Lemma group_ranked_groups (ranked : list Ranked) (acc : Results) :
  text (group_ranked ranked acc)
  = text acc ++ map ranked_doc (List.filter (has_type "text") ranked)
  /\ images (group_ranked ranked acc)
     = images acc ++ map ranked_doc (List.filter (has_type "image") ranked)
  /\ tables (group_ranked ranked acc)
     = tables acc ++ map ranked_doc (List.filter (has_type "table") ranked).
Proof.
  revert acc. induction ranked as [|[[doc score] type_] ranked IH]; intros acc.
  - cbn. by rewrite !app_nil_r.
  - cbn [group_ranked List.filter].
    repeat match goal with
    | |- context [has_type ?t (doc, score, type_)] =>
        change (has_type t (doc, score, type_)) with (String.eqb type_ t)
    end.
    destruct (String.eqb_spec type_ "text") as [->|Htext].
    { destruct (IH {| text := text acc ++ [doc]; images := images acc;
                      tables := tables acc |}) as (-> & -> & ->).
      cbn. by rewrite <- app_assoc. }
    destruct (String.eqb_spec type_ "image") as [->|Himage].
    { destruct (IH {| text := text acc; images := images acc ++ [doc];
                      tables := tables acc |}) as (-> & -> & ->).
      cbn. by rewrite <- app_assoc. }
    destruct (String.eqb_spec type_ "table") as [->|Htable].
    { destruct (IH {| text := text acc; images := images acc;
                      tables := tables acc ++ [doc] |}) as (-> & -> & ->).
      cbn. by rewrite <- app_assoc. }
    apply IH.
Qed.

Lemma weighted_hit_known_type (self : MultimodalRetriever) (query : string)
    (k : Z) (tw iw bw : Q) (x : Ranked) :
  weighted_hit self query k tw iw bw x -> known_type x.
Proof.
  intros (doc & score & H).
  destruct H as [[Hx _]|[[Hx _]|[Hx _]]]; subst x; unfold known_type; cbn; auto.
Qed.

Lemma partition_by_type_length (ranked : list Ranked) :
  Forall known_type ranked ->
  (length (List.filter (has_type "text") ranked)
   + length (List.filter (has_type "image") ranked)
   + length (List.filter (has_type "table") ranked))%nat
  = length ranked.
Proof.
  induction 1 as [|[[doc score] type_] ranked Hx _ IH]; [reflexivity|].
  unfold known_type in Hx. cbn in Hx.
  cbn [List.filter].
  repeat match goal with
  | |- context [has_type ?t (doc, score, type_)] =>
      change (has_type t (doc, score, type_)) with (String.eqb type_ t)
  end.
  destruct Hx as [-> | [-> | ->]]; cbn; lia.
Qed.

Lemma hybrid_groups_length (self : MultimodalRetriever) (query : string)
    (k : Z) (tw iw bw : Q) :
  let ranked := retrieve_hybrid_ranked self query k tw iw bw in
  let results := group_ranked ranked {| text := []; images := []; tables := [] |} in
  (length (text results) + length (images results) + length (tables results))%nat
  = length ranked.
Proof.
  intros ranked results.
  destruct (group_ranked_groups ranked {| text := []; images := []; tables := [] |})
    as (Ht & Hi & Hb).
  subst results. rewrite Ht, Hi, Hb. cbn [text images tables app].
  rewrite !length_map.
  apply partition_by_type_length.
  eapply Forall_impl; [apply ranked_weighted|].
  apply weighted_hit_known_type.
Qed.

(** C4.  Whenever [retrieve_multimodal] returns: for every strategy other
    than hybrid, [total_results] is the number of text documents plus the
    number of images plus the number of tables of the returned groups; for
    the hybrid strategy, [total_results] is the length of the returned
    ranking, and that length is at most [k] (for a count [k >= 0]). *)
Theorem total_results_counts_the_results
    (query : string) (retriever : MultimodalRetriever) (method : string)
    (k : Z) (kwargs : Kwargs) (out : RetrievalOutput) :
  retrieve_multimodal query retriever method k kwargs = Return out ->
  (method <> "hybrid" ->
     r_total_results out
     = (length (text (r_results out)) + length (images (r_results out))
        + length (tables (r_results out)))%nat)
  /\ (method = "hybrid" ->
        exists ranked : list Ranked,
          r_ranked_results out = Some ranked
          /\ r_total_results out = length ranked
          /\ (0 <= k -> Z.of_nat (length ranked) <= k)).
Proof.
  unfold retrieve_multimodal. intros Hout.
  destruct (String.eqb_spec method "all") as [->|Hall].
  { injection Hout as <-. split; [reflexivity|discriminate]. }
  destruct (String.eqb_spec method "hybrid") as [->|Hhybrid].
  { injection Hout as <-. split; [done|]. intros _.
    eexists. split; [reflexivity|]. split; [reflexivity|].
    unfold retrieve_hybrid_ranked. apply length_slice_to_le. }
  split; [intros _|done].
  destruct (String.eqb_spec method "mmr") as [->|Hmmr].
  { by injection Hout as <-. }
  destruct (String.eqb_spec method "text_only") as [->|Htext].
  { destruct (retrieve_by_type_only _ _ _ _); [|discriminate].
    injection Hout as <-. cbn. lia. }
  destruct (String.eqb_spec method "image_only") as [->|Himage].
  { destruct (retrieve_by_type_only _ _ _ _); [|discriminate].
    injection Hout as <-. cbn. lia. }
  destruct (String.eqb_spec method "table_only") as [->|Htable].
  { destruct (retrieve_by_type_only _ _ _ _); [|discriminate].
    injection Hout as <-. cbn. lia. }
  discriminate.
Qed.

(** C10.  Under the hybrid strategy [retrieve_multimodal] returns, and
    the three groups partition the ranking: the text group is the
    documents of the entries tagged ["text"], in the order of the ranking,
    and likewise the image and table groups; every entry carries one of
    the three tags; hence the sizes of the three groups add up to
    [total_results], as for the other strategies. *)
Theorem hybrid_groups_partition_the_ranking
    (query : string) (retriever : MultimodalRetriever) (k : Z) (kwargs : Kwargs) :
  exists (out : RetrievalOutput) (ranked : list Ranked),
    retrieve_multimodal query retriever "hybrid" k kwargs = Return out
    /\ r_ranked_results out = Some ranked
    /\ text (r_results out)
       = map ranked_doc (List.filter (has_type "text") ranked)
    /\ images (r_results out)
       = map ranked_doc (List.filter (has_type "image") ranked)
    /\ tables (r_results out)
       = map ranked_doc (List.filter (has_type "table") ranked)
    /\ Forall known_type ranked
    /\ (length (text (r_results out)) + length (images (r_results out))
        + length (tables (r_results out)))%nat
       = r_total_results out.
Proof.
  eexists _, _. split; [reflexivity|]. cbn [r_ranked_results r_results r_total_results].
  split; [reflexivity|].
  match goal with
  | |- context [group_ranked ?r ?a] =>
      destruct (group_ranked_groups r a) as (Ht & Hi & Hb)
  end.
  split; [exact Ht|]. split; [exact Hi|]. split; [exact Hb|].
  split.
  - eapply Forall_impl; [apply ranked_weighted|].
    apply weighted_hit_known_type.
  - apply hybrid_groups_length.
Qed.

(** *** Source PDFs *)

Lemma py_eqb_refl (v : MetaVal) : py_eqb v v = true.
Proof.
  destruct v; cbn.
  - apply String.eqb_refl.
  - apply Z.eqb_refl.
  - by destruct b.
Qed.

Lemma py_eqb_sym (v w : MetaVal) : py_eqb v w = py_eqb w v.
Proof.
  destruct v, w; cbn; try reflexivity.
  - apply String.eqb_sym.
  - apply Z.eqb_sym.
  - apply Z.eqb_sym.
  - apply Z.eqb_sym.
  - by destruct b, b0.
Qed.

Lemma py_eqb_trans (u v w : MetaVal) :
  py_eqb u v = true -> py_eqb v w = true -> py_eqb u w = true.
Proof.
  destruct u, v, w; cbn; try discriminate;
    rewrite ?String.eqb_eq, ?Z.eqb_eq, ?Bool.eqb_true_iff;
    try congruence;
    repeat match goal with b : bool |- _ => destruct b end;
    cbn; intros; subst; try reflexivity; try lia; try discriminate.
Qed.

Lemma dict_contains_true (u : MetaVal) (pdfs : list (MetaVal * SourcePdf)) :
  dict_contains u pdfs = true
  <-> exists kv, kv ∈ pdfs /\ py_eqb (fst kv) u = true.
Proof.
  unfold dict_contains. rewrite existsb_exists.
  split; intros (kv & Hin & Heq); exists kv; split;
    try done; by apply list_elem_of_In.
Qed.

Lemma dict_contains_app (u : MetaVal) (pdfs more : list (MetaVal * SourcePdf)) :
  dict_contains u (pdfs ++ more) = dict_contains u pdfs || dict_contains u more.
Proof. apply existsb_app. Qed.

Lemma dict_contains_eqv (u v : MetaVal) (pdfs : list (MetaVal * SourcePdf)) :
  py_eqb u v = true -> dict_contains u pdfs = true -> dict_contains v pdfs = true.
Proof.
  intros Huv. rewrite !dict_contains_true.
  intros (kv & Hin & Heq). exists kv. split; [done|].
  by eapply py_eqb_trans.
Qed.

Lemma seen_url_Some (doc : Document) (u : MetaVal) :
  seen_url doc = Some u <-> doc_pdf_url doc = Some u /\ truthy u = true.
Proof.
  unfold seen_url. destruct (doc_pdf_url doc) as [v|].
  - destruct (truthy v) eqn:E.
    + split; [intros [= ->]; done|intros [[= ->] _]; done].
    + split; [discriminate|intros [[= ->] H]; congruence].
  - split; [discriminate|intros [H _]; discriminate].
Qed.

Lemma seen_url_refers_to (doc : Document) (u : MetaVal) :
  seen_url doc = Some u -> refers_to doc u.
Proof. intros H. exists u. split; [done|]. apply py_eqb_refl. Qed.

Lemma refers_to_eqv (doc : Document) (u v : MetaVal) :
  py_eqb u v = true -> refers_to doc u -> refers_to doc v.
Proof.
  intros Huv (w & Hw & Hwu). exists w. split; [done|].
  by eapply py_eqb_trans.
Qed.

Lemma first_reference_snoc (docs : list Document) (d : Document) (p : nat)
    (e : SourcePdf) :
  first_reference docs p e -> first_reference (docs ++ [d]) p e.
Proof.
  intros (doc & Hp & Hseen & He & Hmin).
  exists doc. split; [by apply lookup_app_l_Some|].
  split; [done|]. split; [done|].
  intros q doc' Hq Href.
  destruct (decide (q < length docs)%nat) as [Hlt|Hge].
  - rewrite lookup_app_l in Hq by done. by eapply Hmin.
  - apply lookup_lt_Some in Hp. lia.
Qed.

Lemma first_reference_new (docs : list Document) (d : Document) (u : MetaVal) :
  seen_url d = Some u ->
  (forall doc', doc' ∈ docs -> ~ refers_to doc' u) ->
  first_reference (docs ++ [d]) (length docs) (pdf_entry u d).
Proof.
  intros Hseen Hnew. exists d. cbn [url pdf_entry].
  split; [by apply list_lookup_middle|].
  split; [done|]. split; [done|].
  intros q doc' Hq Href.
  destruct (decide (q < length docs)%nat) as [Hlt|Hge]; [|lia].
  rewrite lookup_app_l in Hq by done.
  exfalso. apply (Hnew doc'); [|done].
  by eapply list_elem_of_lookup_2.
Qed.

Lemma examined_step (docs : list Document) (d : Document) (ps : list nat)
    (pdfs : list (MetaVal * SourcePdf)) :
  examined docs ps pdfs ->
  exists ps', examined (docs ++ [d]) ps' (add_source_pdf pdfs d).
Proof.
  intros (Hentries & Hsorted & Hbound & Hcomplete).
  assert (Forall2 (fun p kv => fst kv = url (snd kv)
                               /\ first_reference (docs ++ [d]) p (snd kv))
            ps pdfs) as Hentries'.
  { eapply Forall2_impl; [exact Hentries|].
    intros p kv [Hk Hf]. split; [done|]. by apply first_reference_snoc. }
  assert (Forall (fun p => (p < length (docs ++ [d]))%nat) ps) as Hbound'.
  { eapply Forall_impl; [exact Hbound|].
    intros p Hp. cbn beta in Hp |- *. rewrite length_app. cbn. lia. }
  assert (forall keep : seen_url d = None \/
                        exists u, seen_url d = Some u /\ dict_contains u pdfs = true,
            examined (docs ++ [d]) ps pdfs) as Hkeep.
  { intros Hd. split; [done|]. split; [done|]. split; [done|].
    intros doc u Hin Hseen. apply elem_of_app in Hin as [Hin|Hin].
    - by eapply Hcomplete.
    - apply list_elem_of_singleton in Hin as ->.
      destruct Hd as [Hd|(v & Hv & Hc)]; congruence. }
  unfold add_source_pdf.
  destruct (doc_pdf_url d) as [u|] eqn:Hurl.
  2:{ exists ps. apply Hkeep. left. unfold seen_url. by rewrite Hurl. }
  destruct (truthy u) eqn:Htruthy.
  2:{ exists ps. apply Hkeep. left. unfold seen_url. by rewrite Hurl, Htruthy. }
  assert (seen_url d = Some u) as Hseen by (by apply seen_url_Some).
  destruct (dict_contains u pdfs) eqn:Hc; cbn [andb negb].
  { exists ps. apply Hkeep. right. by exists u. }
  exists (ps ++ [length docs]).
  split; [|split; [|split]].
  - apply Forall2_app; [done|].
    constructor; [|constructor]. cbn [fst snd]. split; [reflexivity|].
    apply first_reference_new; [done|].
    intros doc' Hin (v & Hv & Hvu).
    assert (dict_contains u pdfs = true); [|congruence].
    eapply dict_contains_eqv; [exact Hvu|]. by eapply Hcomplete.
  - apply StronglySorted_app. split; [|split; [done|repeat constructor]].
    intros p q Hp Hq. apply list_elem_of_singleton in Hq as ->.
    rewrite Forall_forall in Hbound. by apply Hbound.
  - apply Forall_app. split; [done|].
    constructor; [|constructor]. rewrite length_app. cbn. lia.
  - intros doc v Hin Hv. rewrite dict_contains_app.
    apply elem_of_app in Hin as [Hin|Hin].
    + erewrite Hcomplete; [done|exact Hin|exact Hv].
    + apply list_elem_of_singleton in Hin as ->.
      assert (v = u) as -> by congruence.
      cbn. rewrite py_eqb_refl. by rewrite orb_true_r.
Qed.

Lemma examined_all (docs : list Document) :
  exists ps, examined docs ps (foldl add_source_pdf [] docs).
Proof.
  induction docs as [|d docs IH] using rev_ind.
  - exists []. split; [constructor|]. split; [constructor|].
    split; [constructor|]. intros doc u Hin. by apply elem_of_nil in Hin.
  - destruct IH as [ps IH]. rewrite foldl_snoc. by eapply examined_step.
Qed.

Lemma get_unique_source_pdfs_fold (result : RetrievalOutput) :
  get_unique_source_pdfs result
  = map snd (foldl add_source_pdf [] (all_docs (r_results result))).
Proof.
  unfold get_unique_source_pdfs, add_source_pdfs, all_docs.
  by rewrite !foldl_app.
Qed.

Lemma two_positions (n a b : nat) :
  (a < n)%nat -> (b < n)%nat -> a <> b ->
  (forall i, (i < n)%nat -> i = a \/ i = b) -> n = 2%nat.
Proof.
  intros Ha Hb Hab Hall.
  destruct (decide (n <= 2)%nat) as [Hle|Hgt]; [lia|].
  destruct (Hall 0%nat), (Hall 1%nat), (Hall 2%nat); lia.
Qed.

(** C5.  [get_unique_source_pdfs] scans the text items, then the images,
    then the tables, each group in order.  (1) Every source-PDF URL that
    occurs among the items has an entry.  (2) No two entries have the same
    URL.  (3) Each entry is built from the first item that references its
    URL, and the entries stand in the order of those first items.  (4) If
    the items reference only two distinct URLs, and both occur, the list
    has exactly two entries, however many items there are. *)
Theorem unique_source_pdfs_first_seen (result : RetrievalOutput) :
  let docs := all_docs (r_results result) in
  let out := get_unique_source_pdfs result in
  (forall doc u, doc ∈ docs -> seen_url doc = Some u ->
     exists e, e ∈ out /\ py_eqb (url e) u = true)
  /\ (forall (i j : nat) e1 e2,
        out !! i = Some e1 -> out !! j = Some e2 ->
        py_eqb (url e1) (url e2) = true -> i = j)
  /\ (exists ps : list nat,
        Forall2 (first_reference docs) ps out /\ StronglySorted lt ps)
  /\ (forall u1 u2,
        py_eqb u1 u2 = false ->
        (forall doc u, doc ∈ docs -> seen_url doc = Some u ->
           py_eqb u u1 = true \/ py_eqb u u2 = true) ->
        (exists doc, doc ∈ docs /\ refers_to doc u1) ->
        (exists doc, doc ∈ docs /\ refers_to doc u2) ->
        length out = 2%nat).
Proof.
  intros docs out.
  destruct (examined_all docs) as (ps & Hentries & Hsorted & _ & Hcomplete).
  assert (out = map snd (foldl add_source_pdf [] docs)) as Hout
    by apply get_unique_source_pdfs_fold.
  assert (Forall2 (first_reference docs) ps out) as Hfirst.
  { rewrite Hout. apply Forall2_fmap_r.
    eapply Forall2_impl; [exact Hentries|]. by intros p kv [_ H]. }
  assert (forall doc u, doc ∈ docs -> seen_url doc = Some u ->
            exists e, e ∈ out /\ py_eqb (url e) u = true) as Hone.
  { intros doc u Hin Hseen.
    pose proof (Hcomplete doc u Hin Hseen) as Hc.
    apply dict_contains_true in Hc as (kv & Hkv & Heq).
    exists (snd kv). split.
    - rewrite Hout. apply list_elem_of_fmap. by exists kv.
    - apply list_elem_of_lookup in Hkv as [i Hi].
      destruct (Forall2_lookup_r _ _ _ _ _ Hentries Hi) as (p & _ & Hk & _).
      by rewrite <- Hk. }
  assert (forall (i j : nat) e1 e2,
            out !! i = Some e1 -> out !! j = Some e2 ->
            py_eqb (url e1) (url e2) = true -> i = j) as Hunique.
  { intros i j e1 e2 Hi Hj Heq.
    destruct (Forall2_lookup_r _ _ _ _ _ Hfirst Hi)
      as (p1 & Hp1 & d1 & Hd1 & Hs1 & _ & Hmin1).
    destruct (Forall2_lookup_r _ _ _ _ _ Hfirst Hj)
      as (p2 & Hp2 & d2 & Hd2 & Hs2 & _ & Hmin2).
    assert (p1 <= p2)%nat as H12.
    { apply (Hmin1 p2 d2 Hd2). exists (url e2). split; [done|].
      by rewrite py_eqb_sym. }
    assert (p2 <= p1)%nat as H21.
    { apply (Hmin2 p1 d1 Hd1). by exists (url e1). }
    destruct (Nat.lt_total i j) as [Hlt|[Heqij|Hgt]]; [|done|].
    - pose proof (sorted_lookup lt ps i j p1 p2 Hsorted Hp1 Hp2 Hlt). lia.
    - pose proof (sorted_lookup lt ps j i p2 p1 Hsorted Hp2 Hp1 Hgt). lia. }
  split; [exact Hone|]. split; [exact Hunique|].
  split; [by exists ps|].
  intros u1 u2 Hne Honly (doc1 & Hin1 & v1 & Hv1 & Hvu1) (doc2 & Hin2 & v2 & Hv2 & Hvu2).
  destruct (Hone doc1 v1 Hin1 Hv1) as (ea & Hea & Heqa).
  destruct (Hone doc2 v2 Hin2 Hv2) as (eb & Heb & Heqb).
  apply list_elem_of_lookup in Hea as [a Ha].
  apply list_elem_of_lookup in Heb as [b Hb].
  assert (py_eqb (url ea) u1 = true) as Hau by (by eapply py_eqb_trans).
  assert (py_eqb (url eb) u2 = true) as Hbu by (by eapply py_eqb_trans).
  apply (two_positions (length out) a b).
  - by eapply lookup_lt_Some.
  - by eapply lookup_lt_Some.
  - intros ->. assert (ea = eb) as -> by congruence.
    assert (py_eqb u1 u2 = true); [|congruence].
    eapply py_eqb_trans; [|exact Hbu]. by rewrite py_eqb_sym.
  - intros i Hi.
    destruct (lookup_lt_is_Some_2 out i Hi) as [e He].
    destruct (Forall2_lookup_r _ _ _ _ _ Hfirst He)
      as (p & _ & d & Hd & Hs & _ & _).
    assert (d ∈ docs) as Hind by (by eapply list_elem_of_lookup_2).
    destruct (Honly d (url e) Hind Hs) as [H1|H2].
    + left. apply (Hunique i a e ea He Ha).
      eapply py_eqb_trans; [exact H1|]. by rewrite py_eqb_sym.
    + right. apply (Hunique i b e eb He Hb).
      eapply py_eqb_trans; [exact H2|]. by rewrite py_eqb_sym.
Qed.

(** *** Unknown strategy *)


(** *** The theorems at work on the example collections *)

Import Examples.

Lemma total_results_counts_the_results_witness :
  exists out : RetrievalOutput,
    retrieve_multimodal "What is the Q3 revenue?" demo_retriever "hybrid" 3
      no_kwargs = Return out
    /\ ("hybrid" <> "hybrid" ->
          r_total_results out
          = (length (text (r_results out)) + length (images (r_results out))
             + length (tables (r_results out)))%nat)
    /\ ("hybrid" = "hybrid" ->
          exists ranked : list Ranked,
            r_ranked_results out = Some ranked
            /\ r_total_results out = length ranked
            /\ (0 <= 3 -> Z.of_nat (length ranked) <= 3)).
Proof.
  eexists. split; [reflexivity|].
  apply (total_results_counts_the_results "What is the Q3 revenue?"
           demo_retriever "hybrid" 3 no_kwargs).
  reflexivity.
Defined.

Lemma unique_source_pdfs_first_seen_witness :
  py_eqb (MStr doc_pdf) (MStr other_pdf) = false
  /\ length (get_unique_source_pdfs demo_output) = 2%nat.
Proof.
  split; [reflexivity|].
  destruct (unique_source_pdfs_first_seen demo_output) as (_ & _ & _ & Htwo).
  apply (Htwo (MStr doc_pdf) (MStr other_pdf)).
  - reflexivity.
  - intros doc u Hin Hseen.
    vm_compute in Hin.
    repeat (apply elem_of_cons in Hin as [->|Hin]);
      try (vm_compute in Hseen; injection Hseen as <-; vm_compute; auto; fail).
    by apply elem_of_nil in Hin.
  - exists text_a. split; [apply list_elem_of_here|].
    exists (MStr doc_pdf). split; vm_compute; reflexivity.
  - exists image_a. split.
    + vm_compute. do 2 apply list_elem_of_further. apply list_elem_of_here.
    + exists (MStr other_pdf). split; vm_compute; reflexivity.
Defined.

(** The scenario of the specification: one text hit at distance 0.12 and
    one table hit at distance 0.30, weights 0.5 and 0.5. *)
Example hybrid_text_before_table :
  map (fun x => (ranked_type x, ranked_score x))
    (retrieve_hybrid_ranked degraded_retriever "What is the Q3 revenue?" 5
       (1 # 2) (1 # 4) (1 # 2))
  = [("text", (12 # 100) * (1 # 2)); ("table", (30 # 100) * (1 # 2))]%Q.
Proof. reflexivity. Qed.

(** With the default weights the image hit (0.24 / 4) ties with the text
    hit (0.12 / 2) and stays behind it; the ranking is cut at [k]. *)
Example hybrid_demo_ranking :
  map ranked_type
    (retrieve_hybrid_ranked demo_retriever "What is the Q3 revenue?" 3
       (1 # 2) (1 # 4) (1 # 4))
  = ["text"; "image"; "table"].
Proof. reflexivity. Qed.

(** A document without a usable URL adds no entry. *)
Example source_pdfs_of_demo :
  map url
    (get_unique_source_pdfs
       {| r_query := "q"; r_method := "all";
          r_results := {| text := no_url :: text demo_results;
                          images := images demo_results;
                          tables := tables demo_results |};
          r_ranked_results := None; r_total_results := 5 |})
  = [MStr doc_pdf; MStr other_pdf].
Proof. vm_compute. reflexivity. Qed.

End RetrievalProperties.

(** ** Properties of generation *)

Module GenerationProperties.

Import Retrieval Generation.

(** *** Running a computation *)

Lemma run_ret {A : Type} (a : A) (history : list Event) :
  (mret a : M A) history = (a, history).
Proof. reflexivity. Qed.

Lemma run_bind {A B : Type} (m : M A) (f : A -> M B) (history : list Event) :
  (m ≫= f) history = f (fst (m history)) (snd (m history)).
Proof. unfold mbind, M_bind. by destruct (m history). Qed.

Lemma run_fmap {A B : Type} (g : A -> B) (m : M A) (history : list Event) :
  (g <$> m) history = (g (fst (m history)), snd (m history)).
Proof. unfold fmap, M_fmap. by destruct (m history). Qed.

Lemma run_call {A : Type} (e : Event) (answer : list Event -> A)
    (history : list Event) :
  call e answer history = (answer history, history ++ [e]).
Proof. reflexivity. Qed.

Lemma mapM_pure {A B : Type} (f : A -> M B) (g : A -> B) (l : list A)
    (history : list Event) :
  (forall x h, f x h = (g x, h)) ->
  mapM f l history = (map g l, history).
Proof.
  intros Hf. induction l as [|x l IH]; [reflexivity|].
  cbn [mapM]. rewrite run_bind, Hf. cbn [fst snd].
  rewrite run_bind, IH. reflexivity.
Qed.

Lemma enumerate_lookup {A : Type} (start : nat) (l : list A) (i : nat) :
  enumerate start l !! i = (fun x => ((start + i)%nat, x)) <$> l !! i.
Proof.
  revert start i. induction l as [|x l IH]; intros start i; [reflexivity|].
  destruct i as [|i]; cbn.
  - by rewrite Nat.add_0_r.
  - rewrite IH. by replace (S start + i)%nat with (start + S i)%nat by lia.
Qed.

Lemma length_enumerate {A : Type} (start : nat) (l : list A) :
  length (enumerate start l) = length l.
Proof.
  revert start. induction l as [|x l IH]; intros start; cbn; [done|].
  by rewrite IH.
Qed.

(** *** Formatting the context with vision disabled *)

Section VisionDisabled.

Variable world : World.
Variable self : MultimodalGenerator.
Hypothesis disabled : use_vision (config self) = false.

Lemma format_image_vision_off (query : string) (use_vision_now : bool)
    (language : string) (item : nat * Document) (history : list Event) :
  format_image world self query use_vision_now language item history
  = (stored_image_parts self item, history).
Proof.
  destruct item as [i doc]. unfold format_image, self_use_vision.
  rewrite disabled, andb_false_r. reflexivity.
Qed.

Lemma context_parts_vision_off (results : Results) (query : string)
    (use_vision_now : bool) (language : string) (history : list Event) :
  context_parts world self results query use_vision_now language history
  = (stored_context_parts self results, history).
Proof.
  unfold context_parts, stored_context_parts.
  rewrite run_bind.
  destruct (images results) as [|img imgs] eqn:E; [reflexivity|].
  rewrite run_bind.
  rewrite (mapM_pure _ (stored_image_parts self))
    by (intros; apply format_image_vision_off).
  reflexivity.
Qed.

End VisionDisabled.

(** C6.  When vision analysis is disabled in the configuration of the
    generator, formatting the context makes no call at all, whatever the
    collaborators would answer: no image is fetched and the vision model
    is not invoked.  The context is the one built from the stored
    descriptions: for every image, the line with its stored description
    (curly braces doubled) is one of the joined parts. *)
Theorem vision_disabled_uses_stored_descriptions
    (world : World) (self : MultimodalGenerator) (results : Results)
    (query : string) (use_vision_now : bool) (language : string)
    (history : list Event) :
  use_vision (config self) = false ->
  _format_multimodal_context world self results query use_vision_now language
    history
  = (join nl (stored_context_parts self results), history)
  /\ forall (i : nat) (doc : Document),
       images results !! i = Some doc ->
       ("Visual Analysis: " +:+ _escape_curly_braces self (page_content doc) +:+ nl)
       ∈ stored_context_parts self results.
Proof.
  intros disabled. split.
  - unfold _format_multimodal_context.
    rewrite run_bind, (context_parts_vision_off world self disabled).
    reflexivity.
  - intros i doc Hdoc. unfold stored_context_parts.
    apply elem_of_app. right. apply elem_of_app. left.
    destruct (images results) as [|img imgs] eqn:E.
    { by rewrite lookup_nil in Hdoc. }
    rewrite <- E in *. apply list_elem_of_further.
    apply list_elem_of_In, in_concat.
    exists (stored_image_parts self (S i, doc)). split.
    + apply in_map, list_elem_of_In, list_elem_of_lookup.
      exists i. rewrite enumerate_lookup, Hdoc. reflexivity.
    + cbn. auto.
Qed.

(** *** Blank and non-blank contexts *)

Lemma all_space_lstrip (s : string) : all_space (lstrip s) = all_space s.
Proof.
  induction s as [|c s IH]; [reflexivity|].
  cbn. destruct (is_space c) eqn:E; [done|]. cbn. by rewrite E.
Qed.

Lemma rstrip_empty (s : string) : rstrip s = "" <-> all_space s = true.
Proof.
  induction s as [|c s IH]; [done|].
  cbn. destruct (rstrip s) eqn:Er.
  - destruct (is_space c); cbn; [|done].
    split; [intros _; by apply IH|done].
  - split; [done|]. intros H. apply andb_true_iff in H as [_ H].
    apply IH in H. discriminate.
Qed.

Lemma strip_empty (s : string) : strip s = "" <-> all_space s = true.
Proof. unfold strip. by rewrite rstrip_empty, all_space_lstrip. Qed.

Lemma all_space_app (a b : string) :
  all_space (a +:+ b) = all_space a && all_space b.
Proof.
  induction a as [|c a IH]; [reflexivity|].
  change (String c a +:+ b) with (String c (a +:+ b)).
  cbn [all_space]. by rewrite IH, andb_assoc.
Qed.

Lemma all_space_join_cons (part : string) (parts : list string) :
  all_space part = false -> all_space (join nl (part :: parts)) = false.
Proof.
  intros H. unfold join. cbn [String.concat].
  destruct parts; [done|].
  change (all_space (part +:+ (nl +:+ String.concat nl (s :: parts))) = false).
  by rewrite all_space_app, H.
Qed.

Lemma context_parts_head (world : World) (self : MultimodalGenerator)
    (results : Results) (query : string) (use_vision_now : bool)
    (language : string) (history : list Event) :
  ~ no_results results ->
  exists header rest,
    fst (context_parts world self results query use_vision_now language history)
    = header :: rest
    /\ all_space header = false.
Proof.
  intros Hsome. unfold context_parts. rewrite run_bind.
  destruct (text results) as [|t ts] eqn:Et.
  2:{ cbn. eauto. }
  destruct (images results) as [|img imgs] eqn:Ei.
  2:{ rewrite run_bind. cbn. eauto. }
  destruct (tables results) as [|tb tbs] eqn:Eb.
  - by destruct Hsome.
  - cbn. eauto.
Qed.

Lemma context_not_blank (world : World) (self : MultimodalGenerator)
    (results : Results) (query : string) (use_vision_now : bool)
    (language : string) (history : list Event) :
  ~ no_results results ->
  String.eqb
    (strip (fst (_format_multimodal_context world self results query
                   use_vision_now language history))) ""
  = false.
Proof.
  intros Hsome. apply String.eqb_neq. rewrite strip_empty.
  unfold _format_multimodal_context. rewrite run_bind. cbn [fst mret M_ret].
  destruct (context_parts_head world self results query use_vision_now language
              history Hsome) as (header & rest & -> & Hheader).
  by rewrite all_space_join_cons.
Qed.


(** *** Answers without a call, and answers after a failed call *)

Ltac run_steps :=
  repeat (rewrite ?run_bind, ?run_fmap, ?run_ret, ?run_call; cbn [fst snd]).

Lemma prompt_of_method_cases (method : string) (kind : PromptKind) :
  prompt_of_method method = Some kind ->
  (method = "simple" /\ kind = SimplePrompt)
  \/ (method = "citations" /\ kind = CitationsPrompt)
  \/ (method = "structured" /\ kind = StructuredPrompt).
Proof.
  unfold prompt_of_method.
  destruct (String.eqb_spec method "simple"); [intros [= <-]; auto|].
  destruct (String.eqb_spec method "citations"); [intros [= <-]; auto|].
  destruct (String.eqb_spec method "structured"); [intros [= <-]; auto|].
  discriminate.
Qed.


(** C7.  For each of the three generation methods, when the retrieval
    result is not empty (so that the assembled context is not blank) and
    the invocation of the language model on the assembled prompt raises
    [e], [generate_answer] returns an answer: its text is a fixed prefix
    followed by the message of [e], [has_context] is [True], and the
    message is also stored under [error]. *)
Theorem llm_failure_is_returned_in_the_answer
    (world : World) (query : string) (results : Results)
    (config : GenerationConfig) (method language : string)
    (include_sources : bool) (history : list Event)
    (kind : PromptKind) (e : exn) :
  let self := {| Generation.config := config |} in
  let assembled :=
    _format_multimodal_context world self results query (use_vision config)
      language history in
  let prompt :=
    chain_input kind language (fst assembled) (_escape_curly_braces self query) in
  prompt_of_method method = Some kind ->
  ~ no_results results ->
  llm_invoke world (snd assembled) prompt = Raise e ->
  exists answer : Answer,
    generate_answer world query results config method language include_sources
      history
    = (Return answer, snd assembled ++ [LlmInvoke prompt])
    /\ g_has_context answer = true
    /\ g_answer answer = error_prefix kind +:+ str_exn e
    /\ g_error answer = Some (str_exn e).
Proof.
  intros self assembled prompt Hkind Hsome Hfail.
  pose proof (context_not_blank world self results query (use_vision config)
                language history Hsome) as Hblank.
  fold assembled in Hblank.
  unfold generate_answer, dispatch.
  destruct (prompt_of_method_cases method kind Hkind)
    as [[-> ->]|[[-> ->]|[-> ->]]]; cbn [String.eqb Ascii.eqb Bool.eqb];
    [unfold generate_simple|unfold generate_with_citations
    |unfold generate_structured];
    unfold self_use_vision; cbn [Generation.config];
    run_steps; fold self; fold assembled; rewrite Hblank;
    unfold invoke_chain; run_steps; fold prompt; rewrite Hfail;
    cbn [fst snd]; eexists; (split; [reflexivity|]); cbn; auto.
Qed.

(** *** Unknown names *)



(** *** The sources list *)

Lemma str_take_length (n : nat) (s : string) :
  String.length (str_take n s) = min n (String.length s).
Proof.
  revert s. induction n as [|n IH]; intros [|c s]; cbn; try done.
  by rewrite IH.
Qed.

Lemma str_take_prefix (n : nat) (s : string) :
  String.prefix (str_take n s) s = true.
Proof.
  revert s. induction n as [|n IH]; intros [|c s]; cbn; try done.
  destruct (ascii_dec c c); [apply IH|done].
Qed.

(** C9.  In the list built by [_extract_sources] the text sources come
    first, then the image sources, then the table sources, each group in
    the order of the retrieval result and numbered from 1.  The preview of
    a text source is the first 200 characters of the content followed by
    an ellipsis; the preview of a table source is the first 300 characters
    followed by an ellipsis; an image source carries the whole stored
    description, and its [analyzed_with_vision] flag is the [use_vision]
    setting of the generator's configuration (the list is computed from
    the configuration and the retrieval result alone, not from what any
    live call returned). *)
Theorem sources_carry_previews_and_vision_flag
    (self : MultimodalGenerator) (results : Results) :
  let sources := _extract_sources self results in
  length sources
  = (length (text results) + length (images results) + length (tables results))%nat
  /\ (forall (i : nat) (doc : Document),
        text results !! i = Some doc ->
        exists s : Source,
          sources !! i = Some s
          /\ s_type s = "text"
          /\ s_id s = "TEXT-" +:+ str_nat (S i)
          /\ s_content_preview s = Some (str_take 200 (page_content doc) +:+ "...")
          /\ String.length (str_take 200 (page_content doc))
             = min 200 (String.length (page_content doc)))
  /\ (forall (i : nat) (doc : Document),
        images results !! i = Some doc ->
        exists s : Source,
          sources !! (length (text results) + i)%nat = Some s
          /\ s_type s = "image"
          /\ s_id s = "IMAGE-" +:+ str_nat (S i)
          /\ s_description s = Some (page_content doc)
          /\ s_analyzed_with_vision s = Some (use_vision (config self)))
  /\ (forall (i : nat) (doc : Document),
        tables results !! i = Some doc ->
        exists s : Source,
          sources !! (length (text results) + length (images results) + i)%nat
          = Some s
          /\ s_type s = "table"
          /\ s_id s = "TABLE-" +:+ str_nat (S i)
          /\ s_content_preview s = Some (str_take 300 (page_content doc) +:+ "...")
          /\ String.length (str_take 300 (page_content doc))
             = min 300 (String.length (page_content doc))).
Proof.
  intros sources. subst sources. unfold _extract_sources.
  split; [|split; [|split]].
  - rewrite !length_app, !length_map, !length_enumerate. lia.
  - intros i doc Hdoc. eexists. split.
    + rewrite lookup_app_l.
      2:{ rewrite length_map, length_enumerate. by eapply lookup_lt_Some. }
      rewrite list_lookup_fmap, enumerate_lookup, Hdoc. reflexivity.
    + split; [reflexivity|]. split; [reflexivity|]. split; [reflexivity|].
      apply str_take_length.
  - intros i doc Hdoc. eexists. split.
    + rewrite lookup_app_r; rewrite length_map, length_enumerate; [|lia].
      rewrite lookup_app_l.
      2:{ rewrite length_map, length_enumerate.
          apply lookup_lt_Some in Hdoc. lia. }
      replace (length (text results) + i - length (text results))%nat with i by lia.
      rewrite list_lookup_fmap, enumerate_lookup, Hdoc. reflexivity.
    + split; [reflexivity|]. split; [reflexivity|]. split; reflexivity.
  - intros i doc Hdoc. eexists. split.
    + rewrite lookup_app_r; rewrite length_map, length_enumerate; [|lia].
      rewrite lookup_app_r; rewrite length_map, length_enumerate; [|lia].
      replace (length (text results) + length (images results) + i
               - length (text results) - length (images results))%nat
        with i by lia.
      rewrite list_lookup_fmap, enumerate_lookup, Hdoc. reflexivity.
    + split; [reflexivity|]. split; [reflexivity|]. split; [reflexivity|].
      apply str_take_length.
Qed.

(** *** The theorems at work on the example collaborators *)

Import Examples.

(** With vision disabled, the context of the example results is built
    without a call although every collaborator would fail. *)
Lemma vision_disabled_uses_stored_descriptions_witness :
  use_vision (config {| config := vision_off |}) = false
  /\ _format_multimodal_context failing_world {| config := vision_off |}
       demo_results "What is the Q3 revenue?" true "English" []
     = (join nl (stored_context_parts {| config := vision_off |} demo_results), [])
  /\ forall (i : nat) (doc : Document),
       images demo_results !! i = Some doc ->
       ("Visual Analysis: "
        +:+ _escape_curly_braces {| config := vision_off |} (page_content doc)
        +:+ nl)
       ∈ stored_context_parts {| config := vision_off |} demo_results.
Proof.
  split; [reflexivity|].
  apply (vision_disabled_uses_stored_descriptions failing_world
           {| config := vision_off |} demo_results "What is the Q3 revenue?"
           true "English" []).
  reflexivity.
Defined.


Lemma llm_failure_is_returned_in_the_answer_witness :
  let self := {| config := vision_on |} in
  let assembled :=
    _format_multimodal_context failing_world self demo_results
      "What is the Q3 revenue?" (use_vision vision_on) "English" [] in
  let prompt :=
    chain_input SimplePrompt "English" (fst assembled)
      (_escape_curly_braces self "What is the Q3 revenue?") in
  prompt_of_method "simple" = Some SimplePrompt
  /\ ~ no_results demo_results
  /\ llm_invoke failing_world (snd assembled) prompt
     = Raise (Exception "rate limit exceeded")
  /\ exists answer : Answer,
       generate_answer failing_world "What is the Q3 revenue?" demo_results
         vision_on "simple" "English" true []
       = (Return answer, snd assembled ++ [LlmInvoke prompt])
       /\ g_has_context answer = true
       /\ g_answer answer
          = error_prefix SimplePrompt
            +:+ str_exn (Exception "rate limit exceeded")
       /\ g_error answer = Some (str_exn (Exception "rate limit exceeded")).
Proof.
  intros self assembled prompt.
  assert (~ no_results demo_results) as Hsome
    by (intros [H _]; discriminate H).
  split; [reflexivity|]. split; [exact Hsome|]. split; [reflexivity|].
  apply (llm_failure_is_returned_in_the_answer failing_world
           "What is the Q3 revenue?" demo_results vision_on "simple" "English"
           true [] SimplePrompt (Exception "rate limit exceeded")).
  - reflexivity.
  - exact Hsome.
  - reflexivity.
Defined.


Lemma sources_carry_previews_and_vision_flag_witness :
  images demo_results !! 0%nat = Some image_a
  /\ exists s : Source,
       _extract_sources {| config := vision_off |} demo_results !! 2%nat = Some s
       /\ s_type s = "image"
       /\ s_id s = "IMAGE-1"
       /\ s_description s = Some "A bar chart of revenue"
       /\ s_analyzed_with_vision s = Some false.
Proof.
  split; [reflexivity|].
  destruct (sources_carry_previews_and_vision_flag
              {| config := vision_off |} demo_results) as (_ & _ & Himage & _).
  apply (Himage 0%nat image_a). reflexivity.
Defined.

(** *** Where the code departs from the specification *)



End GenerationProperties.

(** ** Further properties of retrieval *)

Module RetrievalFacts.

Import Retrieval RetrievalProperties.

(** *** Which strategies can fail *)


Import Examples.


(** *** The size and the cut of the hybrid ranking *)

Lemma length_weigh (weight : Q) (type_ : string) (hits : list (Document * Q)) :
  length (weigh weight type_ hits) = length hits.
Proof. unfold weigh. apply length_map. Qed.

Lemma length_hybrid_candidates (self : MultimodalRetriever) (query : string)
    (k : Z) (tw iw bw : Q) :
  length (hybrid_candidates self query k tw iw bw) = hit_count self query k.
Proof.
  unfold hybrid_candidates, hit_count, scored_hits.
  rewrite !length_app, !length_weigh. lia.
Qed.

Lemma length_sort_by_score (l : list Ranked) :
  length (sort_by_score l) = length l.
Proof. by rewrite (sort_by_score_perm l). Qed.

(** The hybrid ranking has [min(k, n)] entries, where [n] is the number
    of hits the three collections delivered; a failed collection delivers
    none.  For a negative [k] the slice [[:k]] drops the last [-k] entries
    of the sorted hits instead. *)
Theorem hybrid_ranking_length
    (self : MultimodalRetriever) (query : string) (k : Z) (tw iw bw : Q) :
  length (retrieve_hybrid_ranked self query k tw iw bw)
  = if k <? 0 then (hit_count self query k - Z.to_nat (- k))%nat
    else Nat.min (Z.to_nat k) (hit_count self query k).
Proof.
  unfold retrieve_hybrid_ranked, slice_to.
  destruct (k <? 0); rewrite length_take, length_sort_by_score,
    length_hybrid_candidates; lia.
Qed.


(** *** Only the ratio of the weights matters *)








(** *** Source PDFs: what does not count *)

Lemma add_source_pdf_seen (docs : list Document) (d : Document) :
  (seen_url d = None
   \/ exists doc' u, doc' ∈ docs /\ seen_url d = Some u /\ refers_to doc' u) ->
  add_source_pdf (foldl add_source_pdf [] docs) d
  = foldl add_source_pdf [] docs.
Proof.
  intros Hd.
  destruct (examined_all docs) as (ps & _ & _ & _ & Hcomplete).
  set (pdfs := foldl add_source_pdf [] docs) in *.
  unfold add_source_pdf.
  destruct (doc_pdf_url d) as [u|] eqn:Hurl; [|done].
  destruct (truthy u) eqn:Htruthy; [|done].
  assert (seen_url d = Some u) as Hseen by (by apply seen_url_Some).
  destruct Hd as [Hnone|(doc' & v & Hin & Hv & w & Hw & Hwv)]; [congruence|].
  assert (v = u) as Hvu by congruence.
  assert (dict_contains u pdfs = true) as Hc.
  { rewrite <- Hvu. eapply dict_contains_eqv; [exact Hwv|]. by eapply Hcomplete. }
  by rewrite Hc.
Qed.

(** An item without a usable URL, or whose URL an earlier item already
    references, does not count: the list of source PDFs is the same with
    and without it, whatever path, file name and bucket it carries. *)
Theorem later_duplicates_do_not_count
    (result result' : RetrievalOutput) (before after : list Document)
    (d : Document) :
  all_docs (r_results result) = before ++ d :: after ->
  all_docs (r_results result') = before ++ after ->
  (seen_url d = None
   \/ exists doc' u, doc' ∈ before /\ seen_url d = Some u /\ refers_to doc' u) ->
  get_unique_source_pdfs result = get_unique_source_pdfs result'.
Proof.
  intros Hwith Hwithout Hd.
  rewrite !get_unique_source_pdfs_fold, Hwith, Hwithout.
  rewrite !foldl_app. cbn [foldl].
  by rewrite (add_source_pdf_seen before d Hd).
Qed.

Lemma later_duplicates_do_not_count_witness :
  get_unique_source_pdfs demo_output
  = get_unique_source_pdfs
      {| r_query := "What is the Q3 revenue?"; r_method := "all";
         r_results := {| text := [text_a; text_b]; images := [image_a];
                         tables := [] |};
         r_ranked_results := None; r_total_results := 3 |}.
Proof.
  apply (later_duplicates_do_not_count _ _ [text_a; text_b; image_a] [] table_a).
  - reflexivity.
  - reflexivity.
  - right. exists text_a, (MStr doc_pdf).
    split; [apply list_elem_of_here|].
    split; [vm_compute; reflexivity|].
    exists (MStr doc_pdf). split; vm_compute; reflexivity.
Defined.

Lemma index_le_sorted (ps : list nat) (i p : nat) :
  StronglySorted lt ps -> ps !! i = Some p -> (i <= p)%nat.
Proof.
  intros Hs. revert p. induction i as [|i IH]; intros p Hp; [lia|].
  destruct (lookup_lt_is_Some_2 ps i) as [q Hq].
  { apply lookup_lt_Some in Hp. lia. }
  pose proof (IH q Hq).
  pose proof (sorted_lookup lt ps i (S i) q p Hs Hq Hp). lia.
Qed.

(** The list of source PDFs never has more entries than there are items,
    and it is empty when no item carries a usable URL (both metadata keys
    missing or empty). *)
Theorem source_pdfs_bounded_by_items (result : RetrievalOutput) :
  (length (get_unique_source_pdfs result)
   <= length (all_docs (r_results result)))%nat
  /\ ((forall doc, doc ∈ all_docs (r_results result) -> seen_url doc = None) ->
      get_unique_source_pdfs result = []).
Proof.
  rewrite get_unique_source_pdfs_fold.
  destruct (examined_all (all_docs (r_results result)))
    as (ps & Hentries & Hsorted & Hbound & _).
  pose proof (Forall2_length _ _ _ Hentries) as Hlen.
  split.
  - rewrite length_map, <- Hlen.
    destruct (decide (length ps = 0)%nat) as [->|Hne]; [lia|].
    destruct (lookup_lt_is_Some_2 ps (length ps - 1)) as [p Hp]; [lia|].
    pose proof (index_le_sorted ps _ p Hsorted Hp).
    rewrite Forall_forall in Hbound.
    pose proof (Hbound p (list_elem_of_lookup_2 _ _ _ Hp)). lia.
  - intros Hnone.
    destruct (foldl add_source_pdf [] (all_docs (r_results result)))
      as [|kv pdfs]; [done|].
    apply Forall2_cons_inv_r in Hentries
      as (p & ps' & (_ & doc & Hdoc & Hseen & _) & _ & _).
    rewrite (Hnone doc) in Hseen; [done|].
    by eapply list_elem_of_lookup_2.
Qed.

Lemma source_pdfs_bounded_by_items_witness :
  get_unique_source_pdfs
    {| r_query := "q"; r_method := "text_only";
       r_results := {| text := [no_url]; images := []; tables := [] |};
       r_ranked_results := None; r_total_results := 1 |}
  = [].
Proof.
  apply source_pdfs_bounded_by_items.
  intros doc Hin. apply list_elem_of_singleton in Hin as ->.
  vm_compute. reflexivity.
Defined.

End RetrievalFacts.

(** ** Further properties of generation *)

Module GenerationFacts.

Import Retrieval Generation GenerationProperties.

(** *** Escaping curly braces *)

Lemma append_cons (c : ascii) (a b : string) :
  String c a +:+ b = String c (a +:+ b).
Proof. reflexivity. Qed.

(** [_escape_curly_braces] character by character. *)
Lemma escape_cons (self : MultimodalGenerator) (c : ascii) (s : string) :
  _escape_curly_braces self (String c s)
  = (if Ascii.eqb c "{" then "{{"
     else if Ascii.eqb c "}" then "}}" else String c "")
    +:+ _escape_curly_braces self s.
Proof.
  assert (forall t, _escape_curly_braces self t
                    = str_replace "}" "}}" (str_replace "{" "{{" t)) as Hesc.
  { intros [|a t]; reflexivity. }
  rewrite !Hesc. cbn [str_replace].
  destruct (Ascii.eqb_spec c "{") as [->|Hopen]; [reflexivity|].
  cbn [str_replace].
  destruct (Ascii.eqb_spec c "}") as [->|Hclose]; reflexivity.
Qed.

Lemma halve_other (c : ascii) (rest : string) :
  Ascii.eqb c "{" = false -> Ascii.eqb c "}" = false ->
  halve_braces (String c rest) = String c (halve_braces rest).
Proof.
  intros Hopen Hclose. destruct rest as [|c' rest]; [reflexivity|].
  cbn [halve_braces]. by rewrite Hopen, Hclose.
Qed.

Lemma halve_escape (self : MultimodalGenerator) (s : string) :
  halve_braces (_escape_curly_braces self s) = s.
Proof.
  induction s as [|c s IH]; [reflexivity|].
  rewrite escape_cons.
  destruct (Ascii.eqb_spec c "{") as [->|Hopen].
  { change ("{{" +:+ _escape_curly_braces self s)
      with (String "{" (String "{" (_escape_curly_braces self s))).
    cbn [halve_braces Ascii.eqb Bool.eqb andb orb]. by rewrite IH. }
  destruct (Ascii.eqb_spec c "}") as [->|Hclose].
  { change ("}}" +:+ _escape_curly_braces self s)
      with (String "}" (String "}" (_escape_curly_braces self s))).
    cbn [halve_braces Ascii.eqb Bool.eqb andb orb]. by rewrite IH. }
  change (String c "" +:+ _escape_curly_braces self s)
    with (String c (_escape_curly_braces self s)).
  apply Ascii.eqb_neq in Hopen, Hclose.
  by rewrite halve_other, IH.
Qed.

Lemma length_escape (self : MultimodalGenerator) (s : string) :
  String.length (_escape_curly_braces self s)
  = (String.length s + count_braces s)%nat.
Proof.
  induction s as [|c s IH]; [reflexivity|].
  rewrite escape_cons. cbn [count_braces String.length].
  destruct (Ascii.eqb c "{"); [|destruct (Ascii.eqb c "}")];
    rewrite ?append_cons; cbn [String.length orb];
    change ("" +:+ _escape_curly_braces self s)
      with (_escape_curly_braces self s);
    rewrite IH; lia.
Qed.

Lemma escape_brace_free (self : MultimodalGenerator) (s : string) :
  count_braces s = 0%nat -> _escape_curly_braces self s = s.
Proof.
  induction s as [|c s IH]; [reflexivity|].
  rewrite escape_cons. cbn [count_braces].
  destruct (Ascii.eqb c "{"); [cbn; lia|].
  destruct (Ascii.eqb c "}"); [cbn; lia|].
  cbn [orb]. intros H. rewrite IH by lia. reflexivity.
Qed.

(** Escaping loses nothing and adds one character per brace: two texts
    with the same escaped form are equal (reading each doubled brace as
    one gives the text back), the escaped text is longer by the number of
    braces, and a text without braces is returned as it is. *)
Theorem escaping_braces_is_reversible (self : MultimodalGenerator) :
  (forall a b : string,
     _escape_curly_braces self a = _escape_curly_braces self b -> a = b)
  /\ (forall s : string, halve_braces (_escape_curly_braces self s) = s)
  /\ (forall s : string,
        String.length (_escape_curly_braces self s)
        = (String.length s + count_braces s)%nat)
  /\ (forall s : string,
        count_braces s = 0%nat -> _escape_curly_braces self s = s).
Proof.
  split; [|split; [apply halve_escape|split;
                   [apply length_escape|apply escape_brace_free]]].
  intros a b H.
  rewrite <- (halve_escape self a), <- (halve_escape self b). by rewrite H.
Qed.

(** *** What one image costs *)

Lemma fetch_run (world : World) (self : MultimodalGenerator) (target : string)
    (history : list Event) :
  _fetch_image_as_base64 world self target history
  = (match requests_get world history target with
     | Return image_data => Some (b64encode world image_data)
     | Raise _ => None
     end,
     history ++ [HttpGet target]).
Proof.
  unfold _fetch_image_as_base64. rewrite run_bind, run_call. cbn [fst snd].
  by destruct (requests_get world history target).
Qed.

(** A fetch that raises, or that delivers data whose encoding is empty,
    ends the live analysis of an image: the result is [None], the fetch is
    the only call made and the vision model is not invoked.  An address
    that is not a string is not even fetched. *)
Theorem failed_fetch_skips_the_vision_model
    (world : World) (self : MultimodalGenerator) (query language : string)
    (history : list Event) :
  (forall target : string,
     fetch_fails world history target ->
     _analyze_image_with_vision world self (MStr target) query language history
     = (None, history ++ [HttpGet target]))
  /\ (forall z : Z,
        _analyze_image_with_vision world self (MInt z) query language history
        = (None, history))
  /\ (forall b : bool,
        _analyze_image_with_vision world self (MBool b) query language history
        = (None, history)).
Proof.
  split; [|split; reflexivity].
  intros target Hfail. unfold fetch_fails in Hfail.
  unfold _analyze_image_with_vision. rewrite run_bind, fetch_run. cbn [fst snd].
  destruct (requests_get world history target) as [image_data|e];
    [|reflexivity].
  by rewrite Hfail.
Qed.

Import Examples.

Lemma failed_fetch_skips_the_vision_model_witness :
  fetch_fails failing_world [] "https://x/img.png"
  /\ _analyze_image_with_vision failing_world {| config := vision_on |}
       (MStr "https://x/img.png") "What is the Q3 revenue?" "English" []
     = (None, [] ++ [HttpGet "https://x/img.png"]).
Proof.
  assert (fetch_fails failing_world [] "https://x/img.png") as Hfail
    by exact I.
  split; [exact Hfail|].
  destruct (failed_fetch_skips_the_vision_model failing_world
              {| config := vision_on |} "What is the Q3 revenue?" "English" [])
    as [Hstr _].
  apply Hstr. exact Hfail.
Defined.

(** The calls of one live analysis: at most two, none of the language
    model, appended to the history. *)
Lemma analyze_run (world : World) (self : MultimodalGenerator)
    (image_url : MetaVal) (query language : string) (history : list Event) :
  exists (r : option string) (new : list Event),
    _analyze_image_with_vision world self image_url query language history
    = (r, history ++ new)
    /\ (length new <= 2)%nat
    /\ existsb is_llm_call new = false.
Proof.
  assert (forall (r : option string) (new : list Event) run,
            run = (r, history ++ new) -> (length new <= 2)%nat ->
            existsb is_llm_call new = false ->
            exists r new, run = (r, history ++ new) /\ (length new <= 2)%nat
                          /\ existsb is_llm_call new = false) as Hpack
    by eauto.
  destruct image_url as [target|z|b].
  2,3: apply (Hpack None []); [by rewrite app_nil_r|cbn; lia|reflexivity].
  unfold _analyze_image_with_vision. rewrite run_bind, fetch_run. cbn [fst snd].
  destruct (requests_get world history target) as [image_data|e].
  2:{ apply (Hpack None [HttpGet target]); [reflexivity|cbn; lia|reflexivity]. }
  destruct (b64encode world image_data) as [|c data] eqn:E.
  { apply (Hpack None [HttpGet target]); [reflexivity|cbn; lia|reflexivity]. }
  rewrite run_bind, run_call. cbn [fst snd].
  match goal with
  | |- context [vision_llm_invoke world ?h ?m] =>
      destruct (vision_llm_invoke world h m) as [analysis|e];
        [apply (Hpack (Some analysis) [HttpGet target; VisionInvoke m])
        |apply (Hpack None [HttpGet target; VisionInvoke m])]
  end; first [by rewrite <- app_assoc|cbn; lia|reflexivity].
Qed.

Lemma prefix_append (a b : string) : String.prefix a (a +:+ b) = true.
Proof.
  induction a as [|c a IH]; [by destruct b|].
  change (String c a +:+ b) with (String c (a +:+ b)). cbn [String.prefix].
  by destruct (ascii_dec c c).
Qed.

(** One image always contributes three strings: its marker, an analysis
    line and its address; only the analysis line depends on the
    collaborators. *)
Lemma format_image_run (world : World) (self : MultimodalGenerator)
    (query : string) (use_vision_now : bool) (language : string)
    (item : nat * Document) (history : list Event) :
  exists (parts : list string) (new : list Event),
    format_image world self query use_vision_now language item history
    = (parts, history ++ new)
    /\ Forall2 part_variant parts (stored_image_parts self item)
    /\ (length new <= 2)%nat
    /\ existsb is_llm_call new = false.
Proof.
  destruct item as [i doc]. unfold format_image, stored_image_parts.
  rewrite run_bind.
  destruct (use_vision_now
            && truthy (default (MStr "") (metadata doc !! "supabase_url"))
            && self_use_vision self).
  2:{ eexists _, []. rewrite app_nil_r. split; [reflexivity|].
      split; [|split; [cbn; lia|reflexivity]].
      repeat (constructor; [by left|]). constructor. }
  rewrite run_bind.
  destruct (analyze_run world self
              (default (MStr "") (metadata doc !! "supabase_url"))
              query language history) as (r & new & -> & Hlen & Hllm).
  cbn [fst snd].
  assert (forall label : string,
            part_variant
              (("Visual Analysis" +:+ label))
              ("Visual Analysis: "
               +:+ _escape_curly_braces self (page_content doc) +:+ nl))
    as Hvariant.
  { intros label. right. split; [apply prefix_append|].
    exact (prefix_append "Visual Analysis"
             (": " +:+ _escape_curly_braces self (page_content doc) +:+ nl)). }
  destruct r as [analysis|]; [destruct (String.eqb analysis "")|];
    cbn [negb fst snd mret M_ret]; eexists _, new;
    (split; [reflexivity|]); (split; [|by split]);
    (constructor; [by left|]); (constructor; [|by repeat constructor; left]).
  - apply (Hvariant (" (Stored): "
                     +:+ _escape_curly_braces self (page_content doc) +:+ nl)).
  - apply (Hvariant (" (Real-time): " +:+ analysis +:+ nl)).
  - apply (Hvariant (" (Stored): "
                     +:+ _escape_curly_braces self (page_content doc) +:+ nl)).
Qed.

(** *** The context in every world *)

Lemma part_variant_refl (l : list string) : Forall2 part_variant l l.
Proof. induction l; constructor; [by left|done]. Qed.

Lemma Forall2_concat_variant (ls ks : list (list string)) :
  Forall2 (Forall2 part_variant) ls ks ->
  Forall2 part_variant (concat ls) (concat ks).
Proof.
  induction 1 as [|l k ls ks Hlk _ IH]; cbn; [constructor|].
  by apply Forall2_app.
Qed.

Lemma existsb_app_false {A : Type} (f : A -> bool) (l k : list A) :
  existsb f l = false -> existsb f k = false -> existsb f (l ++ k) = false.
Proof. intros Hl Hk. by rewrite existsb_app, Hl, Hk. Qed.

Lemma mapM_format_image_run (world : World) (self : MultimodalGenerator)
    (query : string) (use_vision_now : bool) (language : string)
    (items : list (nat * Document)) (history : list Event) :
  exists (parts : list (list string)) (new : list Event),
    mapM (format_image world self query use_vision_now language) items history
    = (parts, history ++ new)
    /\ Forall2 (Forall2 part_variant) parts (map (stored_image_parts self) items)
    /\ (length new <= 2 * length items)%nat
    /\ existsb is_llm_call new = false.
Proof.
  revert history. induction items as [|item items IH]; intros history.
  - exists [], []. rewrite app_nil_r. repeat split; [constructor|cbn; lia].
  - cbn [mapM]. rewrite run_bind.
    destruct (format_image_run world self query use_vision_now language item
                history) as (p & new1 & -> & Hp & Hlen1 & Hllm1).
    cbn [fst snd]. rewrite run_bind.
    destruct (IH (history ++ new1)) as (ps & new2 & -> & Hps & Hlen2 & Hllm2).
    cbn [fst snd mret M_ret].
    exists (p :: ps), (new1 ++ new2). rewrite app_assoc.
    split; [reflexivity|]. split; [by constructor|].
    split; [rewrite length_app; cbn [length]; lia|].
    by apply existsb_app_false.
Qed.

Lemma context_parts_run (world : World) (self : MultimodalGenerator)
    (results : Results) (query : string) (use_vision_now : bool)
    (language : string) (history : list Event) :
  exists (parts : list string) (new : list Event),
    context_parts world self results query use_vision_now language history
    = (parts, history ++ new)
    /\ Forall2 part_variant parts (stored_context_parts self results)
    /\ (length new <= 2 * length (images results))%nat
    /\ existsb is_llm_call new = false.
Proof.
  unfold context_parts, stored_context_parts. rewrite run_bind.
  destruct (images results) as [|img imgs] eqn:E.
  - exists
      (match text results with
       | [] => []
       | _ => ("=== TEXT CONTENT ===" +:+ nl)
              :: map (format_text self) (enumerate 1 (text results))
       end
       ++ []
       ++ match tables results with
          | [] => []
          | _ => (nl +:+ "=== TABLES ===" +:+ nl)
                 :: map (format_table self) (enumerate 1 (tables results))
          end), [].
    rewrite app_nil_r. split; [reflexivity|].
    split; [apply part_variant_refl|]. split; [cbn; lia|reflexivity].
  - rewrite run_bind.
    destruct (mapM_format_image_run world self query use_vision_now language
                (enumerate 1 (img :: imgs)) history)
      as (ps & new & -> & Hps & Hlen & Hllm).
    cbn [fst snd mret M_ret]. eexists _, new. split; [reflexivity|].
    rewrite length_enumerate in Hlen.
    split; [|by split].
    apply Forall2_app; [apply part_variant_refl|].
    apply Forall2_app; [|apply part_variant_refl].
    constructor; [by left|]. by apply Forall2_concat_variant.
Qed.

Lemma format_context_run (world : World) (self : MultimodalGenerator)
    (results : Results) (query : string) (use_vision_now : bool)
    (language : string) (history : list Event) :
  exists (parts : list string) (new : list Event),
    _format_multimodal_context world self results query use_vision_now language
      history
    = (join nl parts, history ++ new)
    /\ Forall2 part_variant parts (stored_context_parts self results)
    /\ (length new <= 2 * length (images results))%nat
    /\ existsb is_llm_call new = false.
Proof.
  destruct (context_parts_run world self results query use_vision_now language
              history) as (parts & new & Hrun & Hparts & Hlen & Hllm).
  exists parts, new. split; [|done].
  unfold _format_multimodal_context. rewrite run_bind, Hrun. reflexivity.
Qed.

(** Whatever the collaborators answer, the context has the shape it has
    with vision disabled: the same number of parts, with the same section
    headers, markers, text and table blocks and image addresses at the
    same places; only the analysis line of an image can differ.  Building
    it appends at most two calls per image to the history, none of them
    to the language model. *)
Theorem context_shape_is_independent_of_collaborators
    (world : World) (self : MultimodalGenerator) (results : Results)
    (query : string) (use_vision_now : bool) (language : string)
    (history : list Event) :
  exists (parts : list string) (new : list Event),
    _format_multimodal_context world self results query use_vision_now language
      history
    = (join nl parts, history ++ new)
    /\ Forall2 part_variant parts (stored_context_parts self results)
    /\ (length new <= 2 * length (images results))%nat
    /\ existsb is_llm_call new = false.
Proof. apply format_context_run. Qed.

(** *** When every fetch fails *)

Lemma mapM_trace {A B : Type} (f : A -> M B) (g : A -> B)
    (ev : A -> list Event) (l : list A) (history : list Event) :
  (forall x h, f x h = (g x, h ++ ev x)) ->
  mapM f l history = (map g l, history ++ concat (map ev l)).
Proof.
  intros Hf. revert history.
  induction l as [|x l IH]; intros history; cbn [mapM map concat].
  - by rewrite app_nil_r.
  - rewrite run_bind, Hf. cbn [fst snd]. rewrite run_bind, IH.
    cbn [fst snd mret M_ret]. by rewrite app_assoc.
Qed.

Lemma fetches_of_enumerate (start : nat) (docs : list Document) :
  concat (map (fun item : nat * Document =>
                 match fetch_target (snd item) with
                 | Some target => [HttpGet target]
                 | None => []
                 end) (enumerate start docs))
  = HttpGet <$> omap fetch_target docs.
Proof.
  revert start. induction docs as [|doc docs IH]; intros start; [done|].
  cbn [enumerate map concat omap list_omap snd]. rewrite IH.
  by destruct (fetch_target doc).
Qed.

Section EveryFetchFails.

Variable world : World.
Variable self : MultimodalGenerator.
Hypothesis enabled : use_vision (config self) = true.
Hypothesis no_fetch : forall history target, fetch_fails world history target.

Lemma format_image_fallback (query language : string) (item : nat * Document)
    (history : list Event) :
  format_image world self query true language item history
  = (fallback_image_parts self item,
     history ++ match fetch_target (snd item) with
                | Some target => [HttpGet target]
                | None => []
                end).
Proof.
  destruct item as [i doc].
  unfold format_image, fallback_image_parts, fetch_target, self_use_vision.
  rewrite enabled, andb_true_r. cbn [andb snd].
  destruct (default (MStr "") (metadata doc !! "supabase_url"))
    as [target|z|b] eqn:E; cbn [truthy].
  - destruct (String.eqb target "") eqn:Et; cbn [negb].
    + rewrite run_bind. cbn. by rewrite app_nil_r.
    + rewrite !run_bind.
      pose proof (no_fetch history target) as Hfail. unfold fetch_fails in Hfail.
      unfold _analyze_image_with_vision. rewrite run_bind, fetch_run.
      cbn [fst snd].
      destruct (requests_get world history target) as [image_data|e];
        [rewrite Hfail|]; reflexivity.
  - destruct (z =? 0); cbn [negb]; rewrite !run_bind; cbn;
      by rewrite app_nil_r.
  - destruct b; rewrite !run_bind; cbn; by rewrite app_nil_r.
Qed.

Lemma context_parts_fallback (results : Results) (query language : string)
    (history : list Event) :
  context_parts world self results query true language history
  = (fallback_context_parts self results,
     history ++ (HttpGet <$> omap fetch_target (images results))).
Proof.
  unfold context_parts, fallback_context_parts. rewrite run_bind.
  destruct (images results) as [|img imgs] eqn:E.
  { cbn. by rewrite app_nil_r. }
  rewrite run_bind.
  rewrite (mapM_trace _ (fallback_image_parts self)
             (fun item => match fetch_target (snd item) with
                          | Some target => [HttpGet target]
                          | None => []
                          end))
    by (intros; apply format_image_fallback).
  cbn [fst snd mret M_ret]. by rewrite fetches_of_enumerate.
Qed.

End EveryFetchFails.

(** With vision enabled and every fetch failing, the context is still
    built: each image whose address is usable gets its stored description
    under the label "(Stored)", the others keep the plain label, and the
    only calls made are one fetch per image with a non-empty string
    address, in the order of the images. *)
Theorem failed_fetches_fall_back_to_stored_descriptions
    (world : World) (self : MultimodalGenerator) (results : Results)
    (query language : string) (history : list Event) :
  use_vision (config self) = true ->
  (forall h target, fetch_fails world h target) ->
  _format_multimodal_context world self results query true language history
  = (join nl (fallback_context_parts self results),
     history ++ (HttpGet <$> omap fetch_target (images results))).
Proof.
  intros enabled no_fetch.
  unfold _format_multimodal_context.
  rewrite run_bind, (context_parts_fallback world self enabled no_fetch).
  reflexivity.
Qed.

Lemma failed_fetches_fall_back_to_stored_descriptions_witness :
  use_vision (config {| config := vision_on |}) = true
  /\ (forall h target, fetch_fails failing_world h target)
  /\ _format_multimodal_context failing_world {| config := vision_on |}
       demo_results "What is the Q3 revenue?" true "English" []
     = (join nl (fallback_context_parts {| config := vision_on |} demo_results),
        [] ++ (HttpGet <$> omap fetch_target (images demo_results))).
Proof.
  assert (forall h target, fetch_fails failing_world h target) as Hfail
    by (intros h target; exact I).
  split; [reflexivity|]. split; [exact Hfail|].
  apply (failed_fetches_fall_back_to_stored_descriptions failing_world
           {| config := vision_on |} demo_results "What is the Q3 revenue?"
           "English" []).
  - reflexivity.
  - exact Hfail.
Defined.

(** *** The calls and the outcome of [generate_answer] *)







(** When the language model answers, its text is the answer, unchanged:
    [has_context] is [True], there is no [error], and the model names and
    the language are reported ([vision_model] is [None] when vision is
    disabled).  Only the simple method honours [include_sources] and
    reports [sources_count]; the two other methods always attach the
    sources and never the counts. *)
Theorem model_answer_is_returned_unchanged
    (world : World) (query : string) (results : Results)
    (config : GenerationConfig) (method language : string)
    (include_sources : bool) (history : list Event)
    (kind : PromptKind) (reply : string) :
  let self := {| Generation.config := config |} in
  let assembled :=
    _format_multimodal_context world self results query (use_vision config)
      language history in
  let prompt :=
    chain_input kind language (fst assembled) (_escape_curly_braces self query) in
  prompt_of_method method = Some kind ->
  ~ no_results results ->
  llm_invoke world (snd assembled) prompt = Return reply ->
  generate_answer world query results config method language include_sources
    history
  = (Return {| g_answer := reply;
               g_has_context := true;
               g_sources :=
                 sources_of_success kind include_sources
                   (_extract_sources self results);
               g_error := None;
               g_model := Some (model config);
               g_vision_model :=
                 Some (if use_vision config then Some (vision_model config)
                       else None);
               g_language := Some language;
               g_sources_count := sources_count_of_success kind results |},
     snd assembled ++ [LlmInvoke prompt]).
Proof.
  intros self assembled prompt Hkind Hsome Hreply.
  pose proof (context_not_blank world self results query (use_vision config)
                language history Hsome) as Hblank.
  fold assembled in Hblank.
  unfold generate_answer, dispatch.
  destruct (prompt_of_method_cases method kind Hkind)
    as [[-> ->]|[[-> ->]|[-> ->]]]; cbn [String.eqb Ascii.eqb Bool.eqb];
    [unfold generate_simple|unfold generate_with_citations
    |unfold generate_structured];
    unfold self_use_vision; cbn [Generation.config];
    run_steps; fold self; fold assembled; rewrite Hblank;
    unfold invoke_chain; run_steps; fold prompt; rewrite Hreply;
    reflexivity.
Qed.

Lemma model_answer_is_returned_unchanged_witness :
  let self := {| config := vision_off |} in
  let assembled :=
    _format_multimodal_context working_world self demo_results
      "What is the Q3 revenue?" (use_vision vision_off) "English" [] in
  let prompt :=
    chain_input CitationsPrompt "English" (fst assembled)
      (_escape_curly_braces self "What is the Q3 revenue?") in
  generate_answer working_world "What is the Q3 revenue?" demo_results
    vision_off "citations" "English" false []
  = (Return {| g_answer := "Revenue grew 8% [TEXT-1]";
               g_has_context := true;
               g_sources :=
                 sources_of_success CitationsPrompt false
                   (_extract_sources self demo_results);
               g_error := None;
               g_model := Some (model vision_off);
               g_vision_model :=
                 Some (if use_vision vision_off
                       then Some (vision_model vision_off) else None);
               g_language := Some "English";
               g_sources_count :=
                 sources_count_of_success CitationsPrompt demo_results |},
     snd assembled ++ [LlmInvoke prompt]).
Proof.
  intros self assembled prompt.
  apply (model_answer_is_returned_unchanged working_world
           "What is the Q3 revenue?" demo_results vision_off "citations"
           "English" false [] CitationsPrompt "Revenue grew 8% [TEXT-1]").
  - reflexivity.
  - intros [H _]. discriminate H.
  - reflexivity.
Defined.



End GenerationFacts.

(** ** Properties of the query endpoint *)

Module ApiFacts.

Import Retrieval Generation Api RetrievalProperties GenerationProperties
  GenerationFacts.



Import Examples.


Lemma no_documents_no_source_pdfs (out : RetrievalOutput) :
  no_results (r_results out) -> get_unique_source_pdfs out = [].
Proof.
  intros (Ht & Hi & Hb). unfold get_unique_source_pdfs.
  by rewrite Ht, Hi, Hb.
Qed.

(** When the retrieval returns nothing, the endpoint answers by itself:
    a fixed Indonesian sentence with status "success", zero counts, an
    empty list of sources and of source PDFs.  The generator is not run,
    so no image is fetched and no model is invoked, whatever generation
    method was requested. *)
Theorem empty_retrieval_is_answered_without_generation
    (settings : Settings) (retriever : MultimodalRetriever) (world : World)
    (request : QueryRequest) (history : list Event) (out : RetrievalOutput) :
  Z.of_nat (String.length (req_query request)) <= MAX_QUERY_LENGTH settings ->
  retrieve_multimodal (req_query request) retriever
    (req_retrieval_method request) (req_k request) (retrieval_kwargs request)
  = Return out ->
  no_results (r_results out) ->
  query_documents settings retriever world request history
  = (Respond
       {| resp_status := "success";
          resp_query := req_query request;
          resp_answer :=
            "Maaf, tidak ada informasi relevan yang ditemukan untuk pertanyaan Anda.";
          resp_retrieval_method := req_retrieval_method request;
          resp_generation_method := req_generation_method request;
          resp_language := req_language request;
          resp_vision_used := false;
          resp_sources_count := zero_counts;
          resp_sources := Some [];
          resp_source_pdfs :=
            if req_include_source_pdfs request then Some [] else None;
          resp_total_results := 0 |},
     history).
Proof.
  intros Hlen Hout Hnone. unfold query_documents.
  destruct (Z.gtb_spec (Z.of_nat (String.length (req_query request)))
              (MAX_QUERY_LENGTH settings)); [lia|].
  rewrite Hout, (no_documents_no_source_pdfs out Hnone).
  destruct Hnone as (-> & -> & ->). reflexivity.
Qed.

Lemma empty_retrieval_is_answered_without_generation_witness :
  query_documents demo_settings down_retriever working_world
    (demo_request "mmr" "citations") []
  = (Respond
       {| resp_status := "success";
          resp_query := "What is the Q3 revenue?";
          resp_answer :=
            "Maaf, tidak ada informasi relevan yang ditemukan untuk pertanyaan Anda.";
          resp_retrieval_method := "mmr";
          resp_generation_method := "citations";
          resp_language := "English";
          resp_vision_used := false;
          resp_sources_count := zero_counts;
          resp_sources := Some [];
          resp_source_pdfs := Some [];
          resp_total_results := 0 |},
     []).
Proof.
  eapply (empty_retrieval_is_answered_without_generation demo_settings
            down_retriever working_world (demo_request "mmr" "citations") []).
  - vm_compute. discriminate.
  - reflexivity.
  - repeat split.
Defined.

Lemma counts_need_the_simple_method (world : World) (query : string)
    (results : Results) (config : GenerationConfig) (method language : string)
    (include_sources : bool) (history : list Event) (answer : Answer)
    (trace : list Event) :
  method <> "simple" ->
  generate_answer world query results config method language include_sources
    history
  = (Return answer, trace) ->
  g_sources_count answer = None.
Proof.
  intros Hmethod. apply String.eqb_neq in Hmethod.
  unfold generate_answer, dispatch. rewrite Hmethod.
  destruct (String.eqb method "citations");
    [unfold generate_with_citations|
     destruct (String.eqb method "structured");
       [unfold generate_structured|]];
    repeat first
      [ progress run_steps
      | progress unfold invoke_chain
      | match goal with
        | |- context [if String.eqb ?a ?b then _ else _] =>
            destruct (String.eqb a b)
        | |- context [llm_invoke world ?h ?p] =>
            destruct (llm_invoke world h p)
        end ];
    cbn [fst snd mret M_ret]; by intros [= <- _].
Qed.

(** The response reports how many sources of each type were used only
    for the simple generation method: for any other method the three
    counts of [sources_count] are zero, also when the answer was generated
    from retrieved items. *)
Theorem only_the_simple_method_reports_source_counts
    (settings : Settings) (retriever : MultimodalRetriever) (world : World)
    (request : QueryRequest) (history trace : list Event)
    (response : QueryResponse) :
  req_generation_method request <> "simple" ->
  query_documents settings retriever world request history
  = (Respond response, trace) ->
  resp_sources_count response = zero_counts.
Proof.
  intros Hmethod. unfold query_documents.
  destruct (Z.of_nat (String.length (req_query request))
            >? MAX_QUERY_LENGTH settings); [discriminate|].
  destruct (retrieve_multimodal _ _ _ _ _) as [out|e]; [|discriminate].
  destruct (Nat.eqb _ 0); [by intros [= <- _]|].
  rewrite run_bind.
  match goal with
  | |- context [generate_answer world ?q ?r ?c ?m ?l ?i history] =>
      destruct (generate_answer world q r c m l i history)
        as [[answer|e] trace'] eqn:E
  end; cbn [fst snd mret M_ret]; [|discriminate].
  intros [= <- _]. cbn [resp_sources_count].
  by rewrite (counts_need_the_simple_method _ _ _ _ _ _ _ _ _ _ Hmethod E).
Qed.

Lemma only_the_simple_method_reports_source_counts_witness :
  exists (response : QueryResponse) (trace : list Event),
    query_documents demo_settings demo_retriever working_world
      (demo_request "all" "citations") []
    = (Respond response, trace)
    /\ resp_total_results response = 4%nat
    /\ resp_sources_count response = zero_counts.
Proof.
  destruct (query_documents demo_settings demo_retriever working_world
              (demo_request "all" "citations") [])
    as [[response|status_code detail] trace] eqn:Hrun.
  - exists response, trace. split; [reflexivity|].
    pose proof Hrun as Hvalue. vm_compute in Hvalue.
    split; [by injection Hvalue as <- _|].
    eapply (only_the_simple_method_reports_source_counts demo_settings
              demo_retriever working_world (demo_request "all" "citations") []).
    + discriminate.
    + exact Hrun.
  - vm_compute in Hrun. discriminate Hrun.
Defined.

End ApiFacts.
